(** * Order validation and request construction of the futures trading bot

    A shallow embedding of [BasicBot] from [src/main.py]: the symbol
    lookup, the three order-placement methods and the account-balance
    aggregation, followed by the properties the specification states
    about them.

    Modelling choices.
    - Python [str] values are [string]s of ASCII text; [str.upper] maps
      the letters a-z to A-Z and leaves every other character alone.
    - Python [float] values are IEEE 754 binary64 numbers, taken as
      [spec_float] with precision 53 and maximal exponent 1024.  The
      comparisons with the integer literal [0] compare with positive zero.
    - The exchange client ([self.client]) is an external collaborator: a
      record giving, per endpoint, the answer (a value or a raised
      exception) that the endpoint produces during the call under study.
    - Methods run in a small monad that carries the outcome (a value or a
      raised exception) and the list of requests sent to the exchange so
      far, oldest first.
    - Calls to [logger] only write text to the log handlers; they neither
      reach the exchange nor change control flow and are left out. *)

From Stdlib Require Import ZArith String Ascii List Bool.
From Stdlib Require Import SpecFloat.
From stdpp Require Import base option list strings gmap fin_maps.

Local Open Scope string_scope.

(** ** Strings *)

(** [str.upper] on ASCII text. *)
Definition ascii_upper (c : ascii) : ascii :=
  let n := N_of_ascii c in
  if ((97 <=? n) && (n <=? 122))%N then ascii_of_N (n - 32) else c.

Fixpoint upper (s : string) : string :=
  match s with
  | EmptyString => EmptyString
  | String c s' => String (ascii_upper c) (upper s')
  end.

(** [x in l] / [x not in l] for a string [x] and a list [l] of strings. *)
Definition str_in (x : string) (l : list string) : bool :=
  existsb (String.eqb x) l.

(** ** Floats *)

Abbreviation pyfloat := spec_float.

Definition float_zero : pyfloat := S754_zero false.

(** [x <= 0] and [x > 0] on floats; both are [False] on NaN. *)
Definition float_le0 (x : pyfloat) : bool := SFleb x float_zero.
Definition float_gt0 (x : pyfloat) : bool := SFltb float_zero x.

(** The value of a decimal numeral: sign [neg], digits [m] read as one
    natural number, of which the last [k] are fractional.  It is the float
    nearest to [m / 10^k] (ties to even), as Python reads the numeral. *)
Definition float_of_decimal (neg : bool) (m : N) (k : nat) : pyfloat :=
  match m with
  | N0 => S754_zero neg
  | Npos p =>
      SFdiv 53 1024 (S754_finite neg p 0)
                    (S754_finite false (Z.to_pos (10 ^ Z.of_nat k)) 0)
  end.

(** ** Values, exceptions and the exchange *)

(** The values that occur in the dictionaries exchanged with the client. *)
Inductive pyval :=
| PStr (s : string)
| PFloat (f : pyfloat)
| PInt (z : Z).

(** [x in l] for a string [x] and a list [l] of arbitrary values: a string
    is equal only to an equal string. *)
Definition str_in_vals (x : string) (l : list pyval) : bool :=
  existsb (fun v => match v with PStr s => String.eqb x s | _ => false end) l.

(** Exceptions, all of them instances of Python's [Exception]. *)
Inductive exn :=
| ValueError (msg : string)
| KeyError (key : string)
| BinanceAPIException (status_code : Z) (message : string)
| BinanceRequestException (message : string)
| OtherException (name message : string).

Inductive result (A : Type) :=
| Ok (a : A)
| Raise (e : exn).
Arguments Ok {A} a.
Arguments Raise {A} e.

(** Python's builtin [float] on a plain decimal numeral (an optional
    sign, digits, an optional point and digits), the way the exchange
    writes balances: ["12.50000000"], ["-1.5"].  The other spellings
    Python accepts (exponents, [inf], [nan], blanks, underscores) are
    outside its domain; it instantiates the examples, and the theorems
    about [get_account_balance] hold for every reading of the builtin. *)
Definition digit_of (c : ascii) : option N :=
  let n := N_of_ascii c in
  if ((48 <=? n) && (n <=? 57))%N then Some (n - 48)%N else None.

Fixpoint read_digits (s : string) (acc : N) (count : nat) : N * nat * string :=
  match s with
  | String c s' =>
      match digit_of c with
      | Some d => read_digits s' (10 * acc + d)%N (S count)
      | None => (acc, count, s)
      end
  | EmptyString => (acc, count, s)
  end.

Definition float_of_numeral (s : string) : result pyfloat :=
  let bad := Raise (ValueError ("could not convert string to float: '" ++ s ++ "'")) in
  let '(neg, body) :=
    match s with
    | String "-" r => (true, r)
    | String "+" r => (false, r)
    | _ => (false, s)
    end in
  let '(m1, n1, rest) := read_digits body 0%N 0%nat in
  match rest with
  | EmptyString => if Nat.eqb n1 0 then bad else Ok (float_of_decimal neg m1 0)
  | String "." frac =>
      let '(m2, n2, rest2) := read_digits frac m1 0%nat in
      match rest2 with
      | EmptyString => if Nat.eqb (n1 + n2) 0 then bad else Ok (float_of_decimal neg m2 n2)
      | _ => bad
      end
  | _ => bad
  end.

(** What [futures_exchange_info] returns: a dictionary of which the code
    reads the key ['symbols'] ([None] when the key is absent), a list of
    dictionaries. *)
Record exchange_info := { ei_symbols : option (list (gmap string pyval)) }.

(** What [futures_account] returns: a dictionary, given by its entries
    whose values are decimal strings and by its entry ['assets'] ([None]
    when the key is absent), a list of per-asset dictionaries of decimal
    strings. *)
Record account_info := {
  acc_fields : gmap string string;
  acc_assets : option (list (gmap string string))
}.

Record Client := {
  futures_exchange_info : result exchange_info;
  futures_account : result account_info;
  futures_create_order : gmap string pyval -> result (gmap string pyval)
}.

Record BasicBot := {
  api_key : string;
  api_secret : string;
  testnet : bool;
  client : Client
}.

(** Requests that reach the exchange. *)
Inductive request :=
| ReqExchangeInfo
| ReqAccount
| ReqCreateOrder (params : gmap string pyval).

(** ** The monad of method bodies *)

Record M (A : Type) := Run { outcome : result A; sent : list request }.
Arguments Run {A} outcome sent.
Arguments outcome {A} m.
Arguments sent {A} m.

Definition ret {A} (a : A) : M A := Run (Ok a) [].
Definition raise {A} (e : exn) : M A := Run (Raise e) [].

Definition bind {A B} (m : M A) (k : A -> M B) : M B :=
  match outcome m with
  | Ok a => let m' := k a in Run (outcome m') (sent m ++ sent m')
  | Raise e => Run (Raise e) (sent m)
  end.

(** [try: body except Exception as e: handler e] *)
Definition try_except {A} (body : M A) (handler : exn -> M A) : M A :=
  match outcome body with
  | Ok a => body
  | Raise e => let h := handler e in Run (outcome h) (sent body ++ sent h)
  end.

(** One call of a client endpoint: the request is sent, the endpoint's
    answer is the outcome. *)
Definition call {A} (r : request) (answer : result A) : M A := Run answer [r].

(** Lifting a computation that only may raise. *)
Definition lift {A} (r : result A) : M A := Run r [].

Declare Scope py_scope.
Delimit Scope py_scope with py.
Notation "x <- m ;; k" := (bind m (fun x => k))
  (at level 100, m at next level, right associativity) : py_scope.
Notation "m ;; k" := (bind m (fun _ => k))
  (at level 100, right associativity) : py_scope.
Local Open Scope py_scope.

(** [d[k]] on a dictionary: [KeyError] when the key is absent. *)
Definition getitem {V} (d : gmap string V) (k : string) : result V :=
  match d !! k with
  | Some v => Ok v
  | None => Raise (KeyError k)
  end.

(** A list comprehension [[f x for x in l]] whose element expression may
    raise: elements are evaluated left to right, the first exception
    aborts. *)
Fixpoint comprehension {A B} (f : A -> result B) (l : list A) : result (list B) :=
  match l with
  | [] => Ok []
  | x :: l' =>
      match f x with
      | Raise e => Raise e
      | Ok y =>
          match comprehension f l' with
          | Raise e => Raise e
          | Ok ys => Ok (y :: ys)
          end
      end
  end.

(** ** [BasicBot._validate_symbol] *)

Definition _validate_symbol (self : BasicBot) (symbol : string) : M bool :=
  try_except
    (exchange_info <- call ReqExchangeInfo (futures_exchange_info (client self)) ;;
     valid_symbols <- lift (match ei_symbols exchange_info with
                            | None => Raise (KeyError "symbols")
                            | Some l => comprehension (fun s => getitem s "symbol") l
                            end) ;;
     ret (str_in_vals (upper symbol) valid_symbols))
    (fun e => ret false).

(** ** [BasicBot.place_market_order] *)

Definition place_market_order (self : BasicBot) (symbol side : string)
    (quantity : pyfloat) : M (gmap string pyval) :=
  let symbol := upper symbol in
  let side := upper side in
  valid <- _validate_symbol self symbol ;;
  if negb valid then raise (ValueError ("Invalid symbol: " ++ symbol)) else
  if negb (str_in side ["BUY"; "SELL"])
  then raise (ValueError "Side must be 'BUY' or 'SELL'") else
  if float_le0 quantity then raise (ValueError "Quantity must be positive") else
  let params : gmap string pyval :=
    {[ "symbol" := PStr symbol;
       "side" := PStr side;
       "type" := PStr "MARKET";
       "quantity" := PFloat quantity ]} in
  try_except
    (response <- call (ReqCreateOrder params) (futures_create_order (client self) params) ;;
     ret response)
    (fun e => match e with
              | BinanceAPIException _ _ => raise e
              | _ => raise e
              end).

(** ** [BasicBot.place_limit_order] *)

(** An omitted [time_in_force] argument is [None]; the default is ['GTC']. *)
Definition place_limit_order (self : BasicBot) (symbol side : string)
    (quantity price : pyfloat) (time_in_force : option string) : M (gmap string pyval) :=
  let time_in_force := default "GTC" time_in_force in
  let symbol := upper symbol in
  let side := upper side in
  valid <- _validate_symbol self symbol ;;
  if negb valid then raise (ValueError ("Invalid symbol: " ++ symbol)) else
  if negb (str_in side ["BUY"; "SELL"])
  then raise (ValueError "Side must be 'BUY' or 'SELL'") else
  if float_le0 quantity || float_le0 price
  then raise (ValueError "Quantity and price must be positive") else
  if negb (str_in time_in_force ["GTC"; "IOC"; "FOK"])
  then raise (ValueError "time_in_force must be 'GTC', 'IOC', or 'FOK'") else
  let params : gmap string pyval :=
    {[ "symbol" := PStr symbol;
       "side" := PStr side;
       "type" := PStr "LIMIT";
       "quantity" := PFloat quantity;
       "price" := PFloat price;
       "timeInForce" := PStr time_in_force ]} in
  try_except
    (response <- call (ReqCreateOrder params) (futures_create_order (client self) params) ;;
     ret response)
    (fun e => match e with
              | BinanceAPIException _ _ => raise e
              | _ => raise e
              end).

(** ** [BasicBot.place_stop_limit_order] *)

Definition place_stop_limit_order (self : BasicBot) (symbol side : string)
    (quantity stop_price limit_price : pyfloat) (time_in_force : option string)
    : M (gmap string pyval) :=
  let time_in_force := default "GTC" time_in_force in
  let symbol := upper symbol in
  let side := upper side in
  valid <- _validate_symbol self symbol ;;
  if negb valid then raise (ValueError ("Invalid symbol: " ++ symbol)) else
  if negb (str_in side ["BUY"; "SELL"])
  then raise (ValueError "Side must be 'BUY' or 'SELL'") else
  if float_le0 quantity || float_le0 stop_price || float_le0 limit_price
  then raise (ValueError "Quantity, stop_price, and limit_price must be positive") else
  let params : gmap string pyval :=
    {[ "symbol" := PStr symbol;
       "side" := PStr side;
       "type" := PStr "STOP";
       "quantity" := PFloat quantity;
       "price" := PFloat limit_price;
       "stopPrice" := PFloat stop_price;
       "timeInForce" := PStr time_in_force ]} in
  try_except
    (response <- call (ReqCreateOrder params) (futures_create_order (client self) params) ;;
     ret response)
    (fun e => match e with
              | BinanceAPIException _ _ => raise e
              | _ => raise e
              end).

(** ** [BasicBot.get_account_balance] *)

(** The dictionary the method returns. *)
Record balance := {
  totalWalletBalance : string;
  availableBalance : string;
  assets : list (gmap string string)
}.

(** [for x in l: body], the loop threading the state [s]. *)
Fixpoint for_each {A S} (l : list A) (s : S) (body : S -> A -> M S) : M S :=
  match l with
  | [] => ret s
  | x :: l' => s' <- body s x ;; for_each l' s' body
  end.

Section AccountBalance.

(** Python's builtin [float] applied to a [str]: the parsed number, or
    the [ValueError] it raises. *)
Variable py_float : string -> result pyfloat.

Definition get_account_balance (self : BasicBot) : M balance :=
    try_except
      (account <- call ReqAccount (futures_account (client self)) ;;
       total <- lift (getitem (acc_fields account) "totalWalletBalance") ;;
       available <- lift (getitem (acc_fields account) "availableBalance") ;;
       let balance :=
         {| totalWalletBalance := total; availableBalance := available; assets := [] |} in
       account_assets <- lift (match acc_assets account with
                               | Some l => Ok l
                               | None => Raise (KeyError "assets")
                               end) ;;
       balance <- for_each account_assets balance (fun balance asset =>
         wallet <- lift (getitem asset "walletBalance") ;;
         wallet_value <- lift (py_float wallet) ;;
         if float_gt0 wallet_value then
           a <- lift (getitem asset "asset") ;;
           w <- lift (getitem asset "walletBalance") ;;
           v <- lift (getitem asset "availableBalance") ;;
           let entry : gmap string string :=
             {[ "asset" := a; "walletBalance" := w; "availableBalance" := v ]} in
           ret {| totalWalletBalance := totalWalletBalance balance;
                  availableBalance := availableBalance balance;
                  assets := assets balance ++ [entry] |}
         else ret balance) ;;
       ret balance)
      (fun e => raise e).

End AccountBalance.

(** ** Vocabulary of the properties *)

(** The symbol names the exchange reports: the ['symbol'] entries of the
    lookup's answer.  There is none when the endpoint raises or when the
    answer lacks the key ['symbols'] or an entry lacks ['symbol']. *)
Definition reported_symbols (c : Client) : result (list pyval) :=
  match futures_exchange_info c with
  | Raise e => Raise e
  | Ok info =>
      match ei_symbols info with
      | None => Raise (KeyError "symbols")
      | Some l => comprehension (fun s => getitem s "symbol") l
      end
  end.

(** [s] is among the symbols the exchange reports. *)
Definition listed (self : BasicBot) (s : string) : bool :=
  match reported_symbols (client self) with
  | Ok names => str_in_vals s names
  | Raise _ => false
  end.

(** The messages of the validation errors. *)
Definition invalid_symbol (symbol : string) : exn :=
  ValueError ("Invalid symbol: " ++ upper symbol).
Definition invalid_side : exn :=
  ValueError "Side must be 'BUY' or 'SELL'".
Definition invalid_quantity_market : exn :=
  ValueError "Quantity must be positive".
Definition invalid_quantity_limit : exn :=
  ValueError "Quantity and price must be positive".
Definition invalid_quantity_stop_limit : exn :=
  ValueError "Quantity, stop_price, and limit_price must be positive".
Definition invalid_time_in_force : exn :=
  ValueError "time_in_force must be 'GTC', 'IOC', or 'FOK'".

(** A call that was rejected after the symbol lookup and before any order
    request. *)
Definition rejected {A} (e : exn) : M A := Run (Raise e) [ReqExchangeInfo].

(** A call that sent the order [params] after the symbol lookup and
    returned (or raised) what the exchange answered. *)
Definition submitted (self : BasicBot) (params : gmap string pyval)
    : M (gmap string pyval) :=
  Run (futures_create_order (client self) params)
      [ReqExchangeInfo; ReqCreateOrder params].

(** The entry [get_account_balance] reports for an asset: the asset's
    dictionary cut down to the three reported keys. *)
Definition entry_keys : list string := ["asset"; "walletBalance"; "availableBalance"].

Definition restrict (a : gmap string string) : gmap string string :=
  filter (fun kv => kv.1 ∈ entry_keys) a.

(** The wallet balance of an asset as a number, when the asset has one
    that [py_float] reads. *)
Definition wallet_value (py_float : string -> result pyfloat)
    (a : gmap string string) : option pyfloat :=
  match a !! "walletBalance" with
  | Some w => match py_float w with Ok f => Some f | Raise _ => None end
  | None => None
  end.

Definition wallet_positive (py_float : string -> result pyfloat)
    (a : gmap string string) : bool :=
  match wallet_value py_float a with
  | Some f => float_gt0 f
  | None => false
  end.

(** An asset dictionary with the three keys the method reads and a
    readable wallet balance. *)
Definition well_formed_asset (py_float : string -> result pyfloat)
    (a : gmap string string) : Prop :=
  is_Some (a !! "asset") /\ is_Some (a !! "availableBalance") /\
  is_Some (wallet_value py_float a).

(** The per-asset list in the words of the specification: the reported
    assets without those whose wallet balance equals zero, in the
    reported order. *)
Definition spec_nonzero_assets (py_float : string -> result pyfloat)
    (l : list (gmap string string)) : list (gmap string string) :=
  map restrict
    (List.filter (fun a => match wallet_value py_float a with
                           | Some f => negb (SFeqb f float_zero)
                           | None => false
                           end) l).

(** ** Example exchanges *)

Definition symbol_entry (s : string) : gmap string pyval :=
  {[ "symbol" := PStr s; "status" := PStr "TRADING" ]}.

Definition asset_entry (name wallet available : string) : gmap string string :=
  {[ "asset" := name; "walletBalance" := wallet;
     "availableBalance" := available; "unrealizedProfit" := "0.00000000" ]}.

Definition testnet_assets : list (gmap string string) :=
  [asset_entry "USDT" "100.50000000" "90.00000000";
   asset_entry "BTC" "0.00000000" "0.00000000";
   asset_entry "BNB" "-1.50000000" "0.00000000";
   asset_entry "ETH" "2.00000000" "2.00000000"].

Definition reported_entry (name wallet available : string) : gmap string string :=
  {[ "asset" := name; "walletBalance" := wallet; "availableBalance" := available ]}.

(** An exchange that lists two symbols, accepts every order and reports
    four assets, one of them empty and one overdrawn. *)
Definition testnet_client : Client := {|
  futures_exchange_info :=
    Ok {| ei_symbols := Some [symbol_entry "BTCUSDT"; symbol_entry "ETHUSDT"] |};
  futures_account :=
    Ok {| acc_fields := {[ "totalWalletBalance" := "100.50000000";
                           "availableBalance" := "90.00000000" ]};
          acc_assets := Some testnet_assets |};
  futures_create_order := fun params =>
    Ok (<["orderId" := PInt 1]> (<["status" := PStr "NEW"]> params))
|}.

(** An exchange whose symbol list cannot be fetched. *)
Definition unreachable_client : Client := {|
  futures_exchange_info := Raise (BinanceRequestException "Invalid Response");
  futures_account := Raise (BinanceRequestException "Invalid Response");
  futures_create_order := fun params =>
    Ok (<["orderId" := PInt 1]> (<["status" := PStr "NEW"]> params))
|}.

Definition bot_of (c : Client) : BasicBot :=
  {| api_key := "key"; api_secret := "secret"; testnet := true; client := c |}.

(** ** The remaining methods and the command-line shell

    The rest of [src/main.py]: the connection test and the constructor,
    the four query methods, the two input helpers and [main].  They run
    in a second monad whose state is the list of lines still to be read
    from standard input and whose log is the list of requests sent, over
    all endpoints of the client.  As with [logger], the text that [print]
    and the prompts of [input] write is left out; the subscripts that a
    printed expression evaluates are kept, since a missing key raises. *)

(** [str.lower] and [str.strip] on ASCII text.  The characters [strip]
    removes are the ASCII white space of Python: codes 9-13 and 28-32. *)
Definition ascii_lower (c : ascii) : ascii :=
  let n := N_of_ascii c in
  if ((65 <=? n) && (n <=? 90))%N then ascii_of_N (n + 32) else c.

Fixpoint lower (s : string) : string :=
  match s with
  | EmptyString => EmptyString
  | String c s' => String (ascii_lower c) (lower s')
  end.

Definition is_space (c : ascii) : bool :=
  let n := N_of_ascii c in
  (((9 <=? n) && (n <=? 13)) || ((28 <=? n) && (n <=? 32)))%N.

Fixpoint lstrip (s : string) : string :=
  match s with
  | EmptyString => EmptyString
  | String c s' => if is_space c then lstrip s' else s
  end.

Fixpoint rstrip (s : string) : string :=
  match s with
  | EmptyString => EmptyString
  | String c s' =>
      match rstrip s' with
      | EmptyString => if is_space c then EmptyString else String c EmptyString
      | r => String c r
      end
  end.

Definition strip (s : string) : string := rstrip (lstrip s).

(** What [input] raises at the end of standard input. *)
Definition EOFError : exn := OtherException "EOFError" "EOF when reading a line".

(** The endpoints of [self.client] that the remaining methods call.  The
    ticker is a dictionary given by its entries whose values are decimal
    strings. *)
Record Endpoints := {
  futures_ping : result unit;
  futures_get_open_orders : option string -> result (list (gmap string pyval));
  futures_cancel_order : string -> Z -> result (gmap string pyval);
  futures_get_order : string -> Z -> result (gmap string pyval);
  futures_symbol_ticker : string -> result (gmap string string)
}.

(** A bot whose client answers on all endpoints. *)
Record Bot := { basic : BasicBot; endpoints : Endpoints }.

(** Requests over all endpoints. *)
Inductive wire :=
| Base (r : request)
| ReqPing
| ReqOpenOrders (symbol : option string)
| ReqCancelOrder (symbol : string) (orderId : Z)
| ReqGetOrder (symbol : string) (orderId : Z)
| ReqSymbolTicker (symbol : string).

Record Out (A : Type) := mkOut {
  io_outcome : result A;
  io_sent : list wire;
  io_rest : list string
}.
Arguments mkOut {A} io_outcome io_sent io_rest.
Arguments io_outcome {A} o.
Arguments io_sent {A} o.
Arguments io_rest {A} o.

Definition IO (A : Type) : Type := list string -> Out A.

Definition io_ret {A} (a : A) : IO A := fun inp => mkOut (Ok a) [] inp.
Definition io_raise {A} (e : exn) : IO A := fun inp => mkOut (Raise e) [] inp.
Definition io_lift {A} (r : result A) : IO A := fun inp => mkOut r [] inp.

Definition io_bind {A B} (m : IO A) (k : A -> IO B) : IO B := fun inp =>
  let r := m inp in
  match io_outcome r with
  | Ok a =>
      let r' := k a (io_rest r) in
      mkOut (io_outcome r') (io_sent r ++ io_sent r') (io_rest r')
  | Raise e => mkOut (Raise e) (io_sent r) (io_rest r)
  end.

(** [try: body except Exception as e: handler e] *)
Definition io_try {A} (body : IO A) (handler : exn -> IO A) : IO A := fun inp =>
  let r := body inp in
  match io_outcome r with
  | Ok _ => r
  | Raise e =>
      let h := handler e (io_rest r) in
      mkOut (io_outcome h) (io_sent r ++ io_sent h) (io_rest h)
  end.

(** One call of an endpoint. *)
Definition ask {A} (w : wire) (answer : result A) : IO A :=
  fun inp => mkOut answer [w] inp.

(** A method of the first part, run in the shell. *)
Definition of_M {A} (m : M A) : IO A :=
  fun inp => mkOut (outcome m) (map Base (sent m)) inp.

(** [input(prompt)]: the next line, or [EOFError] when none is left. *)
Definition input : IO string := fun inp =>
  match inp with
  | [] => mkOut (Raise EOFError) [] []
  | line :: rest => mkOut (Ok line) [] rest
  end.

Declare Scope io_scope.
Delimit Scope io_scope with io.
Notation "x <- m ;; k" := (io_bind m (fun x => k))
  (at level 100, m at next level, right associativity) : io_scope.
Notation "m ;; k" := (io_bind m (fun _ => k))
  (at level 100, right associativity) : io_scope.

(** [for x in l: body] for a body that only may raise. *)
Fixpoint io_for {A} (l : list A) (body : A -> IO unit) : IO unit :=
  match l with
  | [] => io_ret tt
  | x :: l' => (body x ;; io_for l' body)%io
  end.

(** *** [BasicBot._test_connection] and [BasicBot.__init__] *)

Definition _test_connection (self : Bot) : IO bool :=
  io_try
    (ask ReqPing (futures_ping (endpoints self)) ;;
     account <- ask (Base ReqAccount) (futures_account (client (basic self))) ;;
     io_lift (getitem (acc_fields account) "totalWalletBalance") ;;
     io_ret true)%io
    (fun e => match e with
              | BinanceAPIException _ _ => io_ret false
              | _ => io_ret false
              end).

(** [new_client] is the outcome of [Client(api_key, api_secret,
    testnet=testnet)]: the client with its endpoints, or the exception the
    library raises.  The result of the connection test is not used. *)
Definition __init__ (api_key api_secret : string) (testnet : bool)
    (new_client : result (Client * Endpoints)) : IO Bot :=
  io_try
    (c <- io_lift new_client ;;
     let self := {| basic := {| api_key := api_key; api_secret := api_secret;
                                testnet := testnet; client := c.1 |};
                    endpoints := c.2 |} in
     _test_connection self ;;
     io_ret self)%io
    (fun e => io_raise e).

(** *** The query methods *)

(** [if symbol:] holds for a string that is given and not empty. *)
Definition get_open_orders (self : Bot) (symbol : option string)
    : IO (list (gmap string pyval)) :=
  io_try
    (orders <- match symbol with
               | Some s =>
                   if negb (String.eqb s "")
                   then ask (ReqOpenOrders (Some (upper s)))
                            (futures_get_open_orders (endpoints self) (Some (upper s)))
                   else ask (ReqOpenOrders None)
                            (futures_get_open_orders (endpoints self) None)
               | None => ask (ReqOpenOrders None)
                             (futures_get_open_orders (endpoints self) None)
               end ;;
     io_ret orders)%io
    (fun e => io_raise e).

Definition cancel_order (self : Bot) (symbol : string) (order_id : Z)
    : IO (gmap string pyval) :=
  io_try
    (response <- ask (ReqCancelOrder (upper symbol) order_id)
                     (futures_cancel_order (endpoints self) (upper symbol) order_id) ;;
     io_ret response)%io
    (fun e => io_raise e).

(** The log line of [get_order_status] reads [order['status']]. *)
Definition get_order_status (self : Bot) (symbol : string) (order_id : Z)
    : IO (gmap string pyval) :=
  io_try
    (order <- ask (ReqGetOrder (upper symbol) order_id)
                  (futures_get_order (endpoints self) (upper symbol) order_id) ;;
     io_lift (getitem order "status") ;;
     io_ret order)%io
    (fun e => io_raise e).

Section Shell.

(** Python's builtins [float] and [int] applied to a [str]: the number, or
    the [ValueError] they raise. *)
Variable py_float : string -> result pyfloat.
Variable py_int : string -> result Z.

Definition get_current_price (self : Bot) (symbol : string) : IO pyfloat :=
  io_try
    (ticker <- ask (ReqSymbolTicker (upper symbol))
                   (futures_symbol_ticker (endpoints self) (upper symbol)) ;;
     text <- io_lift (getitem ticker "price") ;;
     price <- io_lift (py_float text) ;;
     io_ret price)%io
    (fun e => io_raise e).

(** *** The input helpers

    Each round of their [while True] loop reads one line, so the loop is
    a recursion on the lines left. *)

Fixpoint get_float_input (prompt : string) (inp : list string) : Out pyfloat :=
  match inp with
  | [] => mkOut (Raise EOFError) [] []
  | line :: rest =>
      match py_float line with
      | Ok value =>
          if float_le0 value then get_float_input prompt rest
          else mkOut (Ok value) [] rest
      | Raise (ValueError _) => get_float_input prompt rest
      | Raise e => mkOut (Raise e) [] rest
      end
  end.

Fixpoint get_choice_input (prompt : string) (valid_choices : list string)
    (inp : list string) : Out string :=
  match inp with
  | [] => mkOut (Raise EOFError) [] []
  | line :: rest =>
      let choice := upper line in
      if str_in choice valid_choices then mkOut (Ok choice) [] rest
      else get_choice_input prompt valid_choices rest
  end.

(** *** [main]

    [menu_action] is the body of the [try] inside the loop, for the menu
    choice read; it returns whether the loop is left ([break]). *)

Definition read_symbol : IO string :=
  (line <- input ;; io_ret (upper (strip line)))%io.

Definition read_order_id : IO Z :=
  (line <- input ;; io_lift (py_int line))%io.

Definition menu_action (bot : Bot) (choice : string) : IO bool :=
  (if String.eqb choice "1" then
     balance <- of_M (get_account_balance py_float (basic bot)) ;;
     io_ret false
   else if String.eqb choice "2" then
     symbol <- read_symbol ;;
     side <- get_choice_input "Enter side (BUY/SELL): " ["BUY"; "SELL"] ;;
     quantity <- get_float_input "Enter quantity: " ;;
     confirm <- input ;;
     if String.eqb (lower confirm) "yes" then
       response <- of_M (place_market_order (basic bot) symbol side quantity) ;;
       io_lift (getitem response "orderId") ;;
       io_lift (getitem response "status") ;;
       io_ret false
     else io_ret false
   else if String.eqb choice "3" then
     symbol <- read_symbol ;;
     side <- get_choice_input "Enter side (BUY/SELL): " ["BUY"; "SELL"] ;;
     quantity <- get_float_input "Enter quantity: " ;;
     price <- get_float_input "Enter limit price: " ;;
     confirm <- input ;;
     if String.eqb (lower confirm) "yes" then
       response <- of_M (place_limit_order (basic bot) symbol side quantity price None) ;;
       io_lift (getitem response "orderId") ;;
       io_lift (getitem response "status") ;;
       io_ret false
     else io_ret false
   else if String.eqb choice "4" then
     symbol <- read_symbol ;;
     side <- get_choice_input "Enter side (BUY/SELL): " ["BUY"; "SELL"] ;;
     quantity <- get_float_input "Enter quantity: " ;;
     stop_price <- get_float_input "Enter stop price: " ;;
     limit_price <- get_float_input "Enter limit price: " ;;
     confirm <- input ;;
     if String.eqb (lower confirm) "yes" then
       response <- of_M (place_stop_limit_order (basic bot) symbol side quantity
                           stop_price limit_price None) ;;
       io_lift (getitem response "orderId") ;;
       io_lift (getitem response "status") ;;
       io_ret false
     else io_ret false
   else if String.eqb choice "5" then
     symbol <- read_symbol ;;
     orders <- get_open_orders bot (if String.eqb symbol "" then None else Some symbol) ;;
     io_for orders (fun order =>
            io_lift (getitem order "orderId") ;;
            io_lift (getitem order "symbol") ;;
            io_lift (getitem order "type") ;;
            io_lift (getitem order "side") ;;
            io_lift (getitem order "price") ;;
            io_lift (getitem order "origQty") ;;
            io_lift (getitem order "status") ;;
            io_ret tt) ;;
     io_ret false
   else if String.eqb choice "6" then
     symbol <- read_symbol ;;
     order_id <- read_order_id ;;
     response <- cancel_order bot symbol order_id ;;
     io_ret false
   else if String.eqb choice "7" then
     symbol <- read_symbol ;;
     order_id <- read_order_id ;;
     order <- get_order_status bot symbol order_id ;;
     io_lift (getitem order "orderId") ;;
     io_lift (getitem order "symbol") ;;
     io_lift (getitem order "status") ;;
     io_lift (getitem order "type") ;;
     io_lift (getitem order "side") ;;
     io_lift (getitem order "price") ;;
     io_lift (getitem order "origQty") ;;
     io_lift (getitem order "executedQty") ;;
     io_ret false
   else if String.eqb choice "8" then
     symbol <- read_symbol ;;
     price <- get_current_price bot symbol ;;
     io_ret false
   else if String.eqb choice "9" then io_ret true
   else io_ret false)%io.

(** The [while True] loop.  The exchange changes while the shell runs:
    [bot_at n] is the bot with the client as it answers during round [n].
    A round reads at least the menu choice, so the number of rounds is
    bounded by the lines left; [fuel] bounds the rounds, and [None] is
    returned when it runs out with the loop still going. *)
Fixpoint main_loop (bot_at : nat -> Bot) (fuel n : nat) : IO (option unit) :=
  match fuel with
  | O => io_ret None
  | S fuel' =>
      (line <- input ;;
       let choice := strip line in
       stop <- io_try (menu_action (bot_at n) choice)
                 (fun e => match e with
                           | ValueError _ => io_ret false
                           | BinanceAPIException _ _ => io_ret false
                           | _ => io_ret false
                           end) ;;
       if (stop : bool) then io_ret (Some tt)
       else input ;; main_loop bot_at fuel' (S n))%io
  end.

(** [env_key] and [env_secret] are the two environment variables;
    [connect] is the exception of the client's constructor, if it raises;
    [world 0] is the exchange during the connection test and [world n]
    the exchange during round [n] of the loop. *)
Definition main (env_key env_secret : option string) (connect : option exn)
    (world : nat -> Client * Endpoints) (fuel : nat) : IO (option unit) :=
  (let missing (v : option string) :=
     match v with None => true | Some s => String.eqb s "" end in
   credentials <-
     (if missing env_key || missing env_secret then
        key_line <- input ;;
        secret_line <- input ;;
        io_ret (strip key_line, strip secret_line)
      else io_ret (default "" env_key, default "" env_secret)) ;;
   let api_key := credentials.1 in
   let api_secret := credentials.2 in
   let bot_at n :=
     {| basic := {| api_key := api_key; api_secret := api_secret;
                    testnet := true; client := (world n).1 |};
        endpoints := (world n).2 |} in
   io_try
     (bot <- __init__ api_key api_secret true
               (match connect with
                | Some e => Raise e
                | None => Ok (world O)
                end) ;;
      main_loop bot_at fuel 1)
     (fun e => io_ret (Some tt)))%io.

End Shell.

(** *** Example exchange for the shell *)

Definition testnet_endpoints : Endpoints := {|
  futures_ping := Ok tt;
  futures_get_open_orders := fun _ => Ok [];
  futures_cancel_order := fun symbol order_id =>
    Ok {[ "orderId" := PInt order_id; "symbol" := PStr symbol;
          "status" := PStr "CANCELED" ]};
  futures_get_order := fun symbol order_id =>
    Ok {[ "orderId" := PInt order_id; "symbol" := PStr symbol ]};
  futures_symbol_ticker := fun symbol =>
    Ok {[ "symbol" := symbol; "price" := "30000.50" ]}
|}.

Definition testnet_bot : Bot :=
  {| basic := bot_of testnet_client; endpoints := testnet_endpoints |}.

(** Python's builtin [int] on a plain decimal numeral (an optional sign
    and digits); like [float_of_numeral] it instantiates the examples. *)
Definition int_of_numeral (s : string) : result Z :=
  let bad := Raise (ValueError ("invalid literal for int() with base 10: '" ++ s ++ "'")) in
  let '(neg, body) :=
    match s with
    | String "-" r => (true, r)
    | String "+" r => (false, r)
    | _ => (false, s)
    end in
  let '(m, n, rest) := read_digits body 0%N 0%nat in
  match rest with
  | EmptyString =>
      if Nat.eqb n 0 then bad
      else Ok (if (neg : bool) then (- Z.of_N m)%Z else Z.of_N m)
  | _ => bad
  end.


(** ** Basic facts *)

Lemma ascii_upper_idemp (c : ascii) : ascii_upper (ascii_upper c) = ascii_upper c.
Proof. destruct c as [[] [] [] [] [] [] [] []]; vm_compute; reflexivity. Qed.

Lemma upper_idemp (s : string) : upper (upper s) = upper s.
Proof.
  induction s as [|c s IH]; simpl; [reflexivity|].
  rewrite ascii_upper_idemp, IH. reflexivity.
Qed.

(** The executable membership tests agree with list membership. *)
Lemma str_in_spec (x : string) (l : list string) : str_in x l = true <-> x ∈ l.
Proof.
  unfold str_in. rewrite existsb_exists. split.
  - intros (y & Hy & Heq). apply String.eqb_eq in Heq. subst y.
    apply list_elem_of_In. exact Hy.
  - intros Hin. exists x. split; [apply list_elem_of_In; exact Hin|].
    apply String.eqb_refl.
Qed.

Lemma str_in_vals_spec (x : string) (l : list pyval) :
  str_in_vals x l = true <-> PStr x ∈ l.
Proof.
  unfold str_in_vals. rewrite existsb_exists. split.
  - intros (v & Hv & Heq). destruct v as [s| |]; try discriminate.
    apply String.eqb_eq in Heq. subst s. apply list_elem_of_In. exact Hv.
  - intros Hin. exists (PStr x). split; [apply list_elem_of_In; exact Hin|].
    apply String.eqb_refl.
Qed.

Lemma side_ok (side : string) :
  side = "BUY" \/ side = "SELL" -> str_in side ["BUY"; "SELL"] = true.
Proof. intros [-> | ->]; reflexivity. Qed.

Lemma side_bad (side : string) :
  side <> "BUY" -> side <> "SELL" -> str_in side ["BUY"; "SELL"] = false.
Proof.
  intros H1 H2. unfold str_in. simpl.
  apply String.eqb_neq in H1, H2. rewrite H1, H2. reflexivity.
Qed.

(** A positive float passes the positivity check of the order methods. *)
Lemma float_gt0_not_le0 (x : pyfloat) : float_gt0 x = true -> float_le0 x = false.
Proof. destruct x as [[]|[]| |[] m e]; simpl; intros H; try reflexivity; discriminate. Qed.

(** Monad laws used below. *)
Lemma bind_ret {A B} (a : A) (k : A -> M B) : bind (ret a) k = k a.
Proof. unfold bind, ret. simpl. destruct (k a); reflexivity. Qed.

Lemma bind_lift_ok {A B} (a : A) (k : A -> M B) : bind (lift (Ok a)) k = k a.
Proof. exact (bind_ret a k). Qed.

Lemma bind_call_ok {A B} (r : request) (a : A) (k : A -> M B) :
  bind (call r (Ok a)) k = Run (outcome (k a)) (r :: sent (k a)).
Proof. reflexivity. Qed.

(** ** The symbol lookup *)

(** [_validate_symbol] always returns, after exactly one request, whether
    the normalised symbol is listed. *)
Lemma _validate_symbol_eq (self : BasicBot) (symbol : string) :
  _validate_symbol self symbol = Run (Ok (listed self (upper symbol))) [ReqExchangeInfo].
Proof.
  unfold _validate_symbol, listed, reported_symbols, try_except, bind, call, lift, ret.
  destruct (futures_exchange_info (client self)) as [info|e]; simpl; [|reflexivity].
  destruct (ei_symbols info) as [l|]; simpl; [|reflexivity].
  destruct (comprehension _ l); reflexivity.
Qed.

(** ** Normal forms of the order methods

    Each method is a cascade of checks in source order, ending in the one
    order request. *)

Lemma reraise_eq {A} (body : M A) :
  try_except (response <- body ;; ret response)
             (fun e => match e with
                       | BinanceAPIException _ _ => raise e
                       | _ => raise e
                       end) = Run (outcome body) (sent body).
Proof.
  unfold try_except, bind, ret, raise. destruct body as [[a|e] t]; simpl.
  - rewrite app_nil_r. reflexivity.
  - destruct e; simpl; rewrite app_nil_r; reflexivity.
Qed.

Lemma place_market_order_eq (self : BasicBot) (symbol side : string) (quantity : pyfloat) :
  place_market_order self symbol side quantity =
  if negb (listed self (upper symbol)) then rejected (invalid_symbol symbol)
  else if negb (str_in (upper side) ["BUY"; "SELL"]) then rejected invalid_side
  else if float_le0 quantity then rejected invalid_quantity_market
  else submitted self {[ "symbol" := PStr (upper symbol);
                         "side" := PStr (upper side);
                         "type" := PStr "MARKET";
                         "quantity" := PFloat quantity ]}.
Proof.
  unfold place_market_order. rewrite _validate_symbol_eq, upper_idemp.
  unfold bind at 1. cbn [outcome sent].
  destruct (listed self (upper symbol)); cbn [negb]; [|reflexivity].
  destruct (str_in (upper side) _); cbn [negb]; [|reflexivity].
  destruct (float_le0 quantity); [reflexivity|].
  rewrite reraise_eq. reflexivity.
Qed.

Lemma place_limit_order_eq (self : BasicBot) (symbol side : string)
    (quantity price : pyfloat) (time_in_force : option string) :
  place_limit_order self symbol side quantity price time_in_force =
  if negb (listed self (upper symbol)) then rejected (invalid_symbol symbol)
  else if negb (str_in (upper side) ["BUY"; "SELL"]) then rejected invalid_side
  else if float_le0 quantity || float_le0 price then rejected invalid_quantity_limit
  else if negb (str_in (default "GTC" time_in_force) ["GTC"; "IOC"; "FOK"])
       then rejected invalid_time_in_force
  else submitted self {[ "symbol" := PStr (upper symbol);
                         "side" := PStr (upper side);
                         "type" := PStr "LIMIT";
                         "quantity" := PFloat quantity;
                         "price" := PFloat price;
                         "timeInForce" := PStr (default "GTC" time_in_force) ]}.
Proof.
  unfold place_limit_order. rewrite _validate_symbol_eq, upper_idemp.
  unfold bind at 1. cbn [outcome sent].
  destruct (listed self (upper symbol)); cbn [negb]; [|reflexivity].
  destruct (str_in (upper side) _); cbn [negb]; [|reflexivity].
  destruct (float_le0 quantity || float_le0 price); [reflexivity|].
  destruct (str_in (default "GTC" time_in_force) _); cbn [negb]; [|reflexivity].
  rewrite reraise_eq. reflexivity.
Qed.

Lemma place_stop_limit_order_eq (self : BasicBot) (symbol side : string)
    (quantity stop_price limit_price : pyfloat) (time_in_force : option string) :
  place_stop_limit_order self symbol side quantity stop_price limit_price time_in_force =
  if negb (listed self (upper symbol)) then rejected (invalid_symbol symbol)
  else if negb (str_in (upper side) ["BUY"; "SELL"]) then rejected invalid_side
  else if float_le0 quantity || float_le0 stop_price || float_le0 limit_price
       then rejected invalid_quantity_stop_limit
  else submitted self {[ "symbol" := PStr (upper symbol);
                         "side" := PStr (upper side);
                         "type" := PStr "STOP";
                         "quantity" := PFloat quantity;
                         "price" := PFloat limit_price;
                         "stopPrice" := PFloat stop_price;
                         "timeInForce" := PStr (default "GTC" time_in_force) ]}.
Proof.
  unfold place_stop_limit_order. rewrite _validate_symbol_eq, upper_idemp.
  unfold bind at 1. cbn [outcome sent].
  destruct (listed self (upper symbol)); cbn [negb]; [|reflexivity].
  destruct (str_in (upper side) _); cbn [negb]; [|reflexivity].
  destruct (float_le0 quantity || float_le0 stop_price || float_le0 limit_price);
    [reflexivity|].
  rewrite reraise_eq. reflexivity.
Qed.

(** ** Successful submissions *)

(** C2: [place_market_order] with a listed symbol (and a side and quantity
    that pass the checks) normalises symbol and side to upper case and
    sends, after the symbol lookup, exactly one order whose parameter set
    has the four keys symbol, side, type and quantity, type ["MARKET"],
    and neither a price nor a timeInForce entry; the call returns what
    the exchange answers. *)
Theorem market_order_submits (self : BasicBot) (symbol side : string) (quantity : pyfloat) :
  listed self (upper symbol) = true ->
  upper side = "BUY" \/ upper side = "SELL" ->
  float_le0 quantity = false ->
  let params : gmap string pyval :=
    {[ "symbol" := PStr (upper symbol); "side" := PStr (upper side);
       "type" := PStr "MARKET"; "quantity" := PFloat quantity ]} in
  place_market_order self symbol side quantity =
    Run (futures_create_order (client self) params)
        [ReqExchangeInfo; ReqCreateOrder params]
  /\ dom params = ({[ "symbol"; "side"; "type"; "quantity" ]} : gset string)
  /\ params !! "price" = None
  /\ params !! "timeInForce" = None.
Proof.
  intros Hsym Hside Hq params. split; [|split; [|split]].
  - rewrite place_market_order_eq, Hsym, (side_ok _ Hside), Hq. reflexivity.
  - vm_compute. reflexivity.
  - reflexivity.
  - reflexivity.
Qed.

(** The specification's example: ("btcusdt", "buy", 0.01). *)
Lemma market_order_submits_example :
  let params : gmap string pyval :=
    {[ "symbol" := PStr "BTCUSDT"; "side" := PStr "BUY";
       "type" := PStr "MARKET"; "quantity" := PFloat (float_of_decimal false 1 2) ]} in
  place_market_order (bot_of testnet_client) "btcusdt" "buy" (float_of_decimal false 1 2) =
    Run (futures_create_order testnet_client params)
        [ReqExchangeInfo; ReqCreateOrder params]
  /\ params !! "price" = None.
Proof.
  pose proof (market_order_submits (bot_of testnet_client) "btcusdt" "buy"
                (float_of_decimal false 1 2)) as H.
  destruct H as (H1 & _ & H3 & _);
    [reflexivity | left; reflexivity | reflexivity |].
  split; [exact H1 | exact H3].
Defined.

(** C3: [place_stop_limit_order] with valid inputs and no [time_in_force]
    argument sends one order of type ["STOP"] (not ["STOP_LIMIT"]) whose
    price entry is the limit price, whose stopPrice entry is the stop
    price and whose timeInForce entry is the default ["GTC"]. *)
Theorem stop_limit_order_submits (self : BasicBot) (symbol side : string)
    (quantity stop_price limit_price : pyfloat) :
  listed self (upper symbol) = true ->
  upper side = "BUY" \/ upper side = "SELL" ->
  float_le0 quantity = false ->
  float_le0 stop_price = false ->
  float_le0 limit_price = false ->
  let params : gmap string pyval :=
    {[ "symbol" := PStr (upper symbol); "side" := PStr (upper side);
       "type" := PStr "STOP"; "quantity" := PFloat quantity;
       "price" := PFloat limit_price; "stopPrice" := PFloat stop_price;
       "timeInForce" := PStr "GTC" ]} in
  place_stop_limit_order self symbol side quantity stop_price limit_price None =
    Run (futures_create_order (client self) params)
        [ReqExchangeInfo; ReqCreateOrder params]
  /\ params !! "type" = Some (PStr "STOP")
  /\ params !! "price" = Some (PFloat limit_price)
  /\ params !! "stopPrice" = Some (PFloat stop_price)
  /\ params !! "timeInForce" = Some (PStr "GTC").
Proof.
  intros Hsym Hside Hq Hs Hl params. split; [|repeat split].
  rewrite place_stop_limit_order_eq, Hsym, (side_ok _ Hside), Hq, Hs, Hl.
  reflexivity.
Qed.

(** The specification's example: ("ETHUSDT", "SELL", 2, 1800, 1795). *)
Lemma stop_limit_order_submits_example :
  let params : gmap string pyval :=
    {[ "symbol" := PStr "ETHUSDT"; "side" := PStr "SELL";
       "type" := PStr "STOP"; "quantity" := PFloat (float_of_decimal false 2 0);
       "price" := PFloat (float_of_decimal false 1795 0);
       "stopPrice" := PFloat (float_of_decimal false 1800 0);
       "timeInForce" := PStr "GTC" ]} in
  place_stop_limit_order (bot_of testnet_client) "ETHUSDT" "SELL"
    (float_of_decimal false 2 0) (float_of_decimal false 1800 0)
    (float_of_decimal false 1795 0) None =
    Run (futures_create_order testnet_client params)
        [ReqExchangeInfo; ReqCreateOrder params].
Proof.
  pose proof (stop_limit_order_submits (bot_of testnet_client) "ETHUSDT" "SELL"
                (float_of_decimal false 2 0) (float_of_decimal false 1800 0)
                (float_of_decimal false 1795 0)) as H.
  destruct H as (H1 & _);
    [reflexivity | right; reflexivity | reflexivity | reflexivity | reflexivity |].
  exact H1.
Defined.

(** C10: [place_stop_limit_order] does not check [time_in_force]: for
    every string, also one outside GTC, IOC and FOK, a call with a listed
    symbol, a valid side and numbers that pass the positivity check is not
    rejected; it sends the order with that string unchanged as its
    timeInForce entry and returns what the exchange answers. *)
Theorem stop_limit_time_in_force_unchecked (self : BasicBot) (symbol side : string)
    (quantity stop_price limit_price : pyfloat) (time_in_force : string) :
  listed self (upper symbol) = true ->
  upper side = "BUY" \/ upper side = "SELL" ->
  float_le0 quantity = false ->
  float_le0 stop_price = false ->
  float_le0 limit_price = false ->
  let params : gmap string pyval :=
    {[ "symbol" := PStr (upper symbol); "side" := PStr (upper side);
       "type" := PStr "STOP"; "quantity" := PFloat quantity;
       "price" := PFloat limit_price; "stopPrice" := PFloat stop_price;
       "timeInForce" := PStr time_in_force ]} in
  place_stop_limit_order self symbol side quantity stop_price limit_price
      (Some time_in_force) =
    Run (futures_create_order (client self) params)
        [ReqExchangeInfo; ReqCreateOrder params]
  /\ params !! "timeInForce" = Some (PStr time_in_force).
Proof.
  intros Hsym Hside Hq Hs Hl params. split; [|reflexivity].
  rewrite place_stop_limit_order_eq, Hsym, (side_ok _ Hside), Hq, Hs, Hl.
  reflexivity.
Qed.

Lemma stop_limit_time_in_force_unchecked_example :
  let params : gmap string pyval :=
    {[ "symbol" := PStr "BTCUSDT"; "side" := PStr "BUY";
       "type" := PStr "STOP"; "quantity" := PFloat (float_of_decimal false 1 0);
       "price" := PFloat (float_of_decimal false 99 0);
       "stopPrice" := PFloat (float_of_decimal false 100 0);
       "timeInForce" := PStr "whenever" ]} in
  str_in "whenever" ["GTC"; "IOC"; "FOK"] = false
  /\ place_stop_limit_order (bot_of testnet_client) "btcusdt" "buy"
       (float_of_decimal false 1 0) (float_of_decimal false 100 0)
       (float_of_decimal false 99 0) (Some "whenever") =
     Run (futures_create_order testnet_client params)
         [ReqExchangeInfo; ReqCreateOrder params].
Proof.
  split; [reflexivity|].
  pose proof (stop_limit_time_in_force_unchecked (bot_of testnet_client) "btcusdt" "buy"
                (float_of_decimal false 1 0) (float_of_decimal false 100 0)
                (float_of_decimal false 99 0) "whenever") as H.
  destruct H as (H1 & _);
    [reflexivity | left; reflexivity | reflexivity | reflexivity | reflexivity |].
  exact H1.
Defined.

(** ** Rejections *)

(** C1: in each of the three order methods the checks run in the order
    symbol, side, numbers, time-in-force, and the first one that fails
    decides the error: an unlisted symbol gives the invalid-symbol error
    whatever the other arguments are; with a listed symbol a bad side
    gives the invalid-side error whatever the numbers and the
    time-in-force are; with both valid a non-positive number gives the
    method's quantity error whatever the time-in-force is; and the
    time-in-force error of [place_limit_order] is reached only past these
    three.  Every rejection happens right after the symbol lookup. *)
Theorem validation_order (self : BasicBot) (symbol side : string)
    (quantity price stop_price limit_price : pyfloat) (time_in_force : option string) :
  (listed self (upper symbol) = false ->
     place_market_order self symbol side quantity =
       Run (Raise (invalid_symbol symbol)) [ReqExchangeInfo]
     /\ place_limit_order self symbol side quantity price time_in_force =
       Run (Raise (invalid_symbol symbol)) [ReqExchangeInfo]
     /\ place_stop_limit_order self symbol side quantity stop_price limit_price
          time_in_force =
       Run (Raise (invalid_symbol symbol)) [ReqExchangeInfo])
  /\ (listed self (upper symbol) = true ->
      upper side <> "BUY" -> upper side <> "SELL" ->
     place_market_order self symbol side quantity =
       Run (Raise invalid_side) [ReqExchangeInfo]
     /\ place_limit_order self symbol side quantity price time_in_force =
       Run (Raise invalid_side) [ReqExchangeInfo]
     /\ place_stop_limit_order self symbol side quantity stop_price limit_price
          time_in_force =
       Run (Raise invalid_side) [ReqExchangeInfo])
  /\ (listed self (upper symbol) = true ->
      upper side = "BUY" \/ upper side = "SELL" ->
     (float_le0 quantity = true ->
        place_market_order self symbol side quantity =
          Run (Raise invalid_quantity_market) [ReqExchangeInfo])
     /\ (float_le0 quantity = true \/ float_le0 price = true ->
        place_limit_order self symbol side quantity price time_in_force =
          Run (Raise invalid_quantity_limit) [ReqExchangeInfo])
     /\ (float_le0 quantity = true \/ float_le0 stop_price = true \/
         float_le0 limit_price = true ->
        place_stop_limit_order self symbol side quantity stop_price limit_price
          time_in_force =
          Run (Raise invalid_quantity_stop_limit) [ReqExchangeInfo])
     /\ (float_le0 quantity = false -> float_le0 price = false ->
         default "GTC" time_in_force ∉ ["GTC"; "IOC"; "FOK"] ->
        place_limit_order self symbol side quantity price time_in_force =
          Run (Raise invalid_time_in_force) [ReqExchangeInfo])).
Proof.
  rewrite place_market_order_eq, place_limit_order_eq, place_stop_limit_order_eq.
  split; [|split].
  - intros ->. repeat split.
  - intros -> H1 H2. rewrite (side_bad _ H1 H2). repeat split.
  - intros -> Hside. rewrite (side_ok _ Hside). cbn [negb]. repeat split.
    + intros ->. reflexivity.
    + intros H. apply orb_true_iff in H. rewrite H. reflexivity.
    + intros H. rewrite <- !orb_true_iff, orb_assoc in H. rewrite H. reflexivity.
    + intros -> -> Htif. cbn [orb].
      destruct (str_in (default "GTC" time_in_force) _) eqn:E; [|reflexivity].
      apply str_in_spec in E. contradiction.
Qed.

(** An unlisted symbol with a bad side, a negative quantity and a bad
    time-in-force; a listed symbol with a bad side and a negative
    quantity; a valid side with a zero quantity and a bad time-in-force;
    valid numbers with a bad time-in-force. *)
Lemma validation_order_examples :
  place_limit_order (bot_of testnet_client) "dogeusdt" "hold"
      (float_of_decimal true 1 0) (float_of_decimal false 5 0) (Some "DAY") =
    Run (Raise (ValueError "Invalid symbol: DOGEUSDT")) [ReqExchangeInfo]
  /\ place_stop_limit_order (bot_of testnet_client) "btcusdt" "hold"
      (float_of_decimal true 1 0) (float_of_decimal false 5 0)
      (float_of_decimal false 5 0) (Some "DAY") =
    Run (Raise (ValueError "Side must be 'BUY' or 'SELL'")) [ReqExchangeInfo]
  /\ place_limit_order (bot_of testnet_client) "btcusdt" "sell"
      (float_of_decimal false 0 0) (float_of_decimal false 5 0) (Some "DAY") =
    Run (Raise (ValueError "Quantity and price must be positive")) [ReqExchangeInfo]
  /\ place_limit_order (bot_of testnet_client) "btcusdt" "sell"
      (float_of_decimal false 1 0) (float_of_decimal false 5 0) (Some "DAY") =
    Run (Raise (ValueError "time_in_force must be 'GTC', 'IOC', or 'FOK'"))
        [ReqExchangeInfo].
Proof.
  split; [|split; [|split]].
  - apply (validation_order (bot_of testnet_client) "dogeusdt" "hold"
             (float_of_decimal true 1 0) (float_of_decimal false 5 0)
             float_zero float_zero (Some "DAY")).
    reflexivity.
  - apply (validation_order (bot_of testnet_client) "btcusdt" "hold"
             (float_of_decimal true 1 0) (float_of_decimal false 5 0)
             (float_of_decimal false 5 0) (float_of_decimal false 5 0) (Some "DAY"));
      [reflexivity | discriminate | discriminate].
  - apply (validation_order (bot_of testnet_client) "btcusdt" "sell"
             (float_of_decimal false 0 0) (float_of_decimal false 5 0)
             float_zero float_zero (Some "DAY"));
      [reflexivity | right; reflexivity | left; reflexivity].
  - apply (validation_order (bot_of testnet_client) "btcusdt" "sell"
             (float_of_decimal false 1 0) (float_of_decimal false 5 0)
             float_zero float_zero (Some "DAY"));
      [reflexivity | right; reflexivity | reflexivity | reflexivity |].
    intros H. apply str_in_spec in H. discriminate H.
Defined.

(** C4: with a listed symbol and a valid side, a quantity that is zero or
    negative makes each order method raise its quantity error, whatever
    the prices and the time-in-force are, and no order is sent: the only
    request made is the symbol lookup. *)
Theorem non_positive_quantity_rejected (self : BasicBot) (symbol side : string)
    (quantity price stop_price limit_price : pyfloat) (time_in_force : option string) :
  listed self (upper symbol) = true ->
  upper side = "BUY" \/ upper side = "SELL" ->
  float_le0 quantity = true ->
  place_market_order self symbol side quantity =
    Run (Raise (ValueError "Quantity must be positive")) [ReqExchangeInfo]
  /\ place_limit_order self symbol side quantity price time_in_force =
    Run (Raise (ValueError "Quantity and price must be positive")) [ReqExchangeInfo]
  /\ place_stop_limit_order self symbol side quantity stop_price limit_price
       time_in_force =
    Run (Raise (ValueError "Quantity, stop_price, and limit_price must be positive"))
        [ReqExchangeInfo].
Proof.
  intros Hsym Hside Hq.
  rewrite place_market_order_eq, place_limit_order_eq, place_stop_limit_order_eq.
  rewrite Hsym, (side_ok _ Hside), Hq. repeat split.
Qed.

Lemma non_positive_quantity_rejected_example :
  float_le0 (float_of_decimal true 5 1) = true
  /\ place_limit_order (bot_of testnet_client) "ETHUSDT" "BUY"
       (float_of_decimal true 5 1) (float_of_decimal false 1800 0) None =
     Run (Raise (ValueError "Quantity and price must be positive")) [ReqExchangeInfo].
Proof.
  split; [reflexivity|].
  apply (non_positive_quantity_rejected (bot_of testnet_client) "ETHUSDT" "BUY"
           (float_of_decimal true 5 1) (float_of_decimal false 1800 0)
           float_zero float_zero None);
    [reflexivity | left; reflexivity | reflexivity].
Defined.

(** C5: [place_limit_order] with a [time_in_force] other than GTC, IOC and
    FOK raises the time-in-force error although symbol, side, quantity
    and price are valid, and sends no order. *)
Theorem limit_time_in_force_rejected (self : BasicBot) (symbol side : string)
    (quantity price : pyfloat) (time_in_force : string) :
  listed self (upper symbol) = true ->
  upper side = "BUY" \/ upper side = "SELL" ->
  float_le0 quantity = false ->
  float_le0 price = false ->
  time_in_force ∉ ["GTC"; "IOC"; "FOK"] ->
  place_limit_order self symbol side quantity price (Some time_in_force) =
    Run (Raise (ValueError "time_in_force must be 'GTC', 'IOC', or 'FOK'"))
        [ReqExchangeInfo].
Proof.
  intros Hsym Hside Hq Hp Htif.
  rewrite place_limit_order_eq, Hsym, (side_ok _ Hside), Hq, Hp.
  change (default "GTC" (Some time_in_force)) with time_in_force. cbn [negb orb].
  destruct (str_in time_in_force ["GTC"; "IOC"; "FOK"]) eqn:E; [|reflexivity].
  apply str_in_spec in E. contradiction.
Qed.

(** Lower case is not accepted: the time-in-force is not normalised. *)
Lemma limit_time_in_force_rejected_example :
  place_limit_order (bot_of testnet_client) "BTCUSDT" "BUY"
    (float_of_decimal false 1 2) (float_of_decimal false 30000 0) (Some "gtc") =
    Run (Raise (ValueError "time_in_force must be 'GTC', 'IOC', or 'FOK'"))
        [ReqExchangeInfo].
Proof.
  apply (limit_time_in_force_rejected (bot_of testnet_client) "BTCUSDT" "BUY"
           (float_of_decimal false 1 2) (float_of_decimal false 30000 0) "gtc");
    [reflexivity | left; reflexivity | reflexivity | reflexivity |].
  intros H. apply str_in_spec in H. discriminate H.
Defined.

(** C6: [place_stop_limit_order] has one positivity check for quantity,
    stop price and limit price: with a listed symbol and a valid side, as
    soon as one of the three is zero or negative the call raises the one
    combined error, the same for all three, and sends no order. *)
Theorem stop_limit_combined_check (self : BasicBot) (symbol side : string)
    (quantity stop_price limit_price : pyfloat) (time_in_force : option string) :
  listed self (upper symbol) = true ->
  upper side = "BUY" \/ upper side = "SELL" ->
  float_le0 quantity = true \/ float_le0 stop_price = true \/
    float_le0 limit_price = true ->
  place_stop_limit_order self symbol side quantity stop_price limit_price time_in_force =
    Run (Raise (ValueError "Quantity, stop_price, and limit_price must be positive"))
        [ReqExchangeInfo].
Proof.
  intros Hsym Hside H.
  rewrite place_stop_limit_order_eq, Hsym, (side_ok _ Hside). cbn [negb].
  rewrite <- !orb_true_iff, orb_assoc in H. rewrite H. reflexivity.
Qed.

(** The specification's example: ("BTCUSDT", "BUY", 1, 100, 0). *)
Lemma stop_limit_combined_check_example :
  place_stop_limit_order (bot_of testnet_client) "BTCUSDT" "BUY"
    (float_of_decimal false 1 0) (float_of_decimal false 100 0)
    (float_of_decimal false 0 0) None =
    Run (Raise (ValueError "Quantity, stop_price, and limit_price must be positive"))
        [ReqExchangeInfo].
Proof.
  apply (stop_limit_combined_check (bot_of testnet_client) "BTCUSDT" "BUY"
           (float_of_decimal false 1 0) (float_of_decimal false 100 0)
           (float_of_decimal false 0 0) None);
    [reflexivity | left; reflexivity | right; right; reflexivity].
Defined.

(** ** Failure of the symbol lookup *)

Lemma lookup_raises (c : Client) (e : exn) :
  futures_exchange_info c = Raise e -> reported_symbols c = Raise e.
Proof. unfold reported_symbols. intros ->. reflexivity. Qed.

(** C7: when the symbol-list lookup fails, because the endpoint raises or
    because its answer lacks the entries that are read, [_validate_symbol]
    does not raise but returns [False], and each order method rejects the
    call with the invalid-symbol error, as it does for an unlisted
    symbol. *)
Theorem lookup_failure_is_invalid_symbol (self : BasicBot) (symbol side : string)
    (quantity price stop_price limit_price : pyfloat) (time_in_force : option string)
    (e : exn) :
  reported_symbols (client self) = Raise e ->
  _validate_symbol self symbol = Run (Ok false) [ReqExchangeInfo]
  /\ place_market_order self symbol side quantity =
       Run (Raise (ValueError ("Invalid symbol: " ++ upper symbol))) [ReqExchangeInfo]
  /\ place_limit_order self symbol side quantity price time_in_force =
       Run (Raise (ValueError ("Invalid symbol: " ++ upper symbol))) [ReqExchangeInfo]
  /\ place_stop_limit_order self symbol side quantity stop_price limit_price
       time_in_force =
       Run (Raise (ValueError ("Invalid symbol: " ++ upper symbol))) [ReqExchangeInfo].
Proof.
  intros He.
  assert (Hl : forall s, listed self s = false).
  { intros s. unfold listed. rewrite He. reflexivity. }
  rewrite _validate_symbol_eq, place_market_order_eq, place_limit_order_eq,
    place_stop_limit_order_eq, !Hl.
  repeat split.
Qed.

(** An unreachable exchange, and an answer in which one entry has no
    ['symbol']. *)
Lemma lookup_failure_is_invalid_symbol_example :
  _validate_symbol (bot_of unreachable_client) "BTCUSDT" = Run (Ok false) [ReqExchangeInfo]
  /\ place_market_order (bot_of unreachable_client) "BTCUSDT" "BUY"
       (float_of_decimal false 1 0) =
     Run (Raise (ValueError "Invalid symbol: BTCUSDT")) [ReqExchangeInfo]
  /\ _validate_symbol
       (bot_of {| futures_exchange_info :=
                    Ok {| ei_symbols := Some [symbol_entry "BTCUSDT"; ∅] |};
                  futures_account := futures_account testnet_client;
                  futures_create_order := futures_create_order testnet_client |})
       "BTCUSDT" = Run (Ok false) [ReqExchangeInfo].
Proof.
  split; [|split].
  - apply (lookup_failure_is_invalid_symbol (bot_of unreachable_client) "BTCUSDT" "BUY"
             (float_of_decimal false 1 0) float_zero float_zero float_zero None
             (BinanceRequestException "Invalid Response")).
    apply lookup_raises. reflexivity.
  - apply (lookup_failure_is_invalid_symbol (bot_of unreachable_client) "BTCUSDT" "BUY"
             (float_of_decimal false 1 0) float_zero float_zero float_zero None
             (BinanceRequestException "Invalid Response")).
    reflexivity.
  - apply (lookup_failure_is_invalid_symbol _ "BTCUSDT" "BUY"
             (float_of_decimal false 1 0) float_zero float_zero float_zero None
             (KeyError "symbol")).
    reflexivity.
Defined.

(** ** Requests made before a validation error *)

Lemma side_ok_inv (side : string) :
  str_in side ["BUY"; "SELL"] = true -> side = "BUY" \/ side = "SELL".
Proof.
  unfold str_in. simpl. rewrite orb_false_r. intros H.
  apply orb_true_iff in H. destruct H as [H|H]; apply String.eqb_eq in H; auto.
Qed.

(** C9 as stated fails: the rejection of a bad side comes after the
    request that fetches the symbol list. *)
Lemma validation_error_after_lookup :
  outcome (place_market_order (bot_of testnet_client) "BTCUSDT" "HOLD"
             (float_of_decimal false 1 0)) =
    Raise (ValueError "Side must be 'BUY' or 'SELL'")
  /\ sent (place_market_order (bot_of testnet_client) "BTCUSDT" "HOLD"
             (float_of_decimal false 1 0)) = [ReqExchangeInfo]
  /\ sent (place_market_order (bot_of testnet_client) "BTCUSDT" "HOLD"
             (float_of_decimal false 1 0)) <> [].
Proof. repeat split. discriminate. Qed.

(** C9, amended: whenever one of the checks of an order method fails, the
    method raises a [ValueError] before any order request is made; the
    one request that has reached the exchange by then is the symbol-list
    lookup of [_validate_symbol]. *)
Theorem validation_error_before_order (self : BasicBot) (symbol side : string)
    (quantity price stop_price limit_price : pyfloat) (time_in_force : option string) :
  (listed self (upper symbol) = false \/
   (upper side <> "BUY" /\ upper side <> "SELL") \/
   float_le0 quantity = true ->
   exists msg, place_market_order self symbol side quantity =
                 Run (Raise (ValueError msg)) [ReqExchangeInfo])
  /\ (listed self (upper symbol) = false \/
      (upper side <> "BUY" /\ upper side <> "SELL") \/
      float_le0 quantity = true \/ float_le0 price = true \/
      default "GTC" time_in_force ∉ ["GTC"; "IOC"; "FOK"] ->
      exists msg, place_limit_order self symbol side quantity price time_in_force =
                    Run (Raise (ValueError msg)) [ReqExchangeInfo])
  /\ (listed self (upper symbol) = false \/
      (upper side <> "BUY" /\ upper side <> "SELL") \/
      float_le0 quantity = true \/ float_le0 stop_price = true \/
      float_le0 limit_price = true ->
      exists msg, place_stop_limit_order self symbol side quantity stop_price
                    limit_price time_in_force =
                    Run (Raise (ValueError msg)) [ReqExchangeInfo]).
Proof.
  rewrite place_market_order_eq, place_limit_order_eq, place_stop_limit_order_eq.
  destruct (listed self (upper symbol)); cbn [negb];
    [|repeat split; intros _; eexists; reflexivity].
  destruct (str_in (upper side) ["BUY"; "SELL"]) eqn:Hside; cbn [negb];
    [|repeat split; intros _; eexists; reflexivity].
  apply side_ok_inv in Hside.
  split; [|split].
  - destruct (float_le0 quantity); [intros _; eexists; reflexivity|].
    intros [H|[[H1 H2]|H]]; [discriminate | | discriminate].
    destruct Hside; contradiction.
  - destruct (float_le0 quantity); [intros _; eexists; reflexivity|].
    destruct (float_le0 price); [intros _; eexists; reflexivity|]. cbn [orb].
    destruct (str_in (default "GTC" time_in_force) ["GTC"; "IOC"; "FOK"]) eqn:Htif;
      cbn [negb]; [|intros _; eexists; reflexivity].
    apply str_in_spec in Htif.
    intros [H|[[H1 H2]|[H|[H|H]]]]; try discriminate; [|contradiction].
    destruct Hside; contradiction.
  - destruct (float_le0 quantity); [intros _; eexists; reflexivity|].
    destruct (float_le0 stop_price); [intros _; eexists; reflexivity|].
    destruct (float_le0 limit_price); [intros _; eexists; reflexivity|].
    intros [H|[[H1 H2]|[H|[H|H]]]]; try discriminate.
    destruct Hside; contradiction.
Qed.

Lemma validation_error_before_order_example :
  exists msg, place_market_order (bot_of testnet_client) "BTCUSDT" "HOLD"
                (float_of_decimal false 1 0) =
                Run (Raise (ValueError msg)) [ReqExchangeInfo].
Proof.
  apply (validation_error_before_order (bot_of testnet_client) "BTCUSDT" "HOLD"
           (float_of_decimal false 1 0) float_zero float_zero float_zero None).
  right; left. split; discriminate.
Defined.

(** ** Account balance *)

Lemma restrict_entry (a : gmap string string) (n w v : string) :
  a !! "asset" = Some n -> a !! "walletBalance" = Some w ->
  a !! "availableBalance" = Some v ->
  ({[ "asset" := n; "walletBalance" := w; "availableBalance" := v ]}
     : gmap string string) = restrict a.
Proof.
  intros Hn Hw Hv. apply map_eq. intros k. unfold restrict, entry_keys.
  destruct (decide (k = "asset")) as [->|H1].
  { rewrite lookup_insert_eq. symmetry.
    apply map_lookup_filter_Some_2; [exact Hn | set_solver]. }
  rewrite lookup_insert_ne by congruence.
  destruct (decide (k = "walletBalance")) as [->|H2].
  { rewrite lookup_insert_eq. symmetry.
    apply map_lookup_filter_Some_2; [exact Hw | set_solver]. }
  rewrite lookup_insert_ne by congruence.
  destruct (decide (k = "availableBalance")) as [->|H3].
  { rewrite lookup_singleton_eq. symmetry.
    apply map_lookup_filter_Some_2; [exact Hv | set_solver]. }
  rewrite lookup_singleton_ne by congruence. symmetry.
  apply map_lookup_filter_None_2. right. intros x _ Hin. cbn [fst] in Hin.
  repeat (apply elem_of_cons in Hin as [Hin|Hin]; [congruence|]).
  apply elem_of_nil in Hin. exact Hin.
Qed.

Section BalanceFacts.

Variable py_float : string -> result pyfloat.

(** The loop over the reported assets appends, in order, the entries of
    the assets whose wallet balance is positive. *)
Lemma balance_loop (l : list (gmap string string)) (b : balance) :
  Forall (well_formed_asset py_float) l ->
  for_each l b (fun balance asset =>
         wallet <- lift (getitem asset "walletBalance") ;;
         wallet_value <- lift (py_float wallet) ;;
         if float_gt0 wallet_value then
           a <- lift (getitem asset "asset") ;;
           w <- lift (getitem asset "walletBalance") ;;
           v <- lift (getitem asset "availableBalance") ;;
           let entry : gmap string string :=
             {[ "asset" := a; "walletBalance" := w; "availableBalance" := v ]} in
           ret {| totalWalletBalance := totalWalletBalance balance;
                  availableBalance := availableBalance balance;
                  assets := assets balance ++ [entry] |}
         else ret balance) =
  Run (Ok {| totalWalletBalance := totalWalletBalance b;
             availableBalance := availableBalance b;
             assets := assets b ++
                       map restrict (List.filter (wallet_positive py_float) l) |}) [].
Proof.
  intros Hwf. revert b. induction Hwf as [|a l Ha Hl IH]; intros b.
  - simpl. rewrite app_nil_r. destruct b; reflexivity.
  - destruct Ha as ([n Hn] & [v Hv] & [f Hf]).
    unfold wallet_value in Hf.
    destruct (a !! "walletBalance") as [w|] eqn:Hw; [|discriminate].
    destruct (py_float w) as [f'|] eqn:Hpf; [|discriminate].
    injection Hf as ->.
    assert (En : getitem a "asset" = Ok n) by (unfold getitem; rewrite Hn; reflexivity).
    assert (Ew : getitem a "walletBalance" = Ok w)
      by (unfold getitem; rewrite Hw; reflexivity).
    assert (Ev : getitem a "availableBalance" = Ok v)
      by (unfold getitem; rewrite Hv; reflexivity).
    cbn [for_each List.filter]. unfold wallet_positive at 1, wallet_value.
    rewrite Hw, Hpf, Ew, bind_lift_ok, Hpf, bind_lift_ok.
    destruct (float_gt0 f).
    + rewrite En, Ev, !bind_lift_ok, bind_ret, IH.
      cbn [totalWalletBalance availableBalance assets map].
      rewrite <- app_assoc. cbn [app].
      rewrite (restrict_entry a n w v Hn Hw Hv). reflexivity.
    + rewrite bind_ret, IH. reflexivity.
Qed.

(** C8, amended: for a well-formed account answer, [get_account_balance]
    returns the two totals and the per-asset list obtained from the
    reported assets by keeping exactly those whose wallet balance, read
    as a number, is greater than zero, in the reported order, each cut
    down to its asset, walletBalance and availableBalance entries. *)
Theorem balance_keeps_positive_wallets (self : BasicBot) (account : account_info)
    (total available : string) (l : list (gmap string string)) :
  futures_account (client self) = Ok account ->
  acc_fields account !! "totalWalletBalance" = Some total ->
  acc_fields account !! "availableBalance" = Some available ->
  acc_assets account = Some l ->
  Forall (well_formed_asset py_float) l ->
  get_account_balance py_float self =
    Run (Ok {| totalWalletBalance := total;
               availableBalance := available;
               assets := map restrict (List.filter (wallet_positive py_float) l) |})
        [ReqAccount].
Proof.
  intros Hacc Htot Hav Hl Hwf.
  assert (Et : getitem (acc_fields account) "totalWalletBalance" = Ok total)
    by (unfold getitem; rewrite Htot; reflexivity).
  assert (Ea : getitem (acc_fields account) "availableBalance" = Ok available)
    by (unfold getitem; rewrite Hav; reflexivity).
  unfold get_account_balance. rewrite Hacc, bind_call_ok. cbn beta.
  rewrite Et, Ea, Hl, !bind_lift_ok, (balance_loop l _ Hwf).
  reflexivity.
Qed.

End BalanceFacts.

Lemma balance_keeps_positive_wallets_example :
  get_account_balance float_of_numeral (bot_of testnet_client) =
    Run (Ok {| totalWalletBalance := "100.50000000";
               availableBalance := "90.00000000";
               assets := [reported_entry "USDT" "100.50000000" "90.00000000";
                          reported_entry "ETH" "2.00000000" "2.00000000"] |})
        [ReqAccount].
Proof.
  apply (balance_keeps_positive_wallets float_of_numeral (bot_of testnet_client)
           {| acc_fields := {[ "totalWalletBalance" := "100.50000000";
                               "availableBalance" := "90.00000000" ]};
              acc_assets := Some testnet_assets |}
           "100.50000000" "90.00000000" testnet_assets);
    try reflexivity.
  repeat constructor; eexists; vm_compute; reflexivity.
Defined.

(** C8 as stated fails: an overdrawn asset has a wallet balance different
    from zero and is removed all the same. *)
Lemma negative_wallet_removed :
  get_account_balance float_of_numeral (bot_of testnet_client) =
    Run (Ok {| totalWalletBalance := "100.50000000";
               availableBalance := "90.00000000";
               assets := [reported_entry "USDT" "100.50000000" "90.00000000";
                          reported_entry "ETH" "2.00000000" "2.00000000"] |})
        [ReqAccount]
  /\ spec_nonzero_assets float_of_numeral testnet_assets =
       [reported_entry "USDT" "100.50000000" "90.00000000";
        reported_entry "BNB" "-1.50000000" "0.00000000";
        reported_entry "ETH" "2.00000000" "2.00000000"]
  /\ [reported_entry "USDT" "100.50000000" "90.00000000";
       reported_entry "ETH" "2.00000000" "2.00000000"] <>
     spec_nonzero_assets float_of_numeral testnet_assets.
Proof.
  split; [vm_compute; reflexivity|].
  split; [vm_compute; reflexivity|].
  intros H. apply (f_equal (@length _)) in H. vm_compute in H. discriminate H.
Qed.

(** ** Further properties of the order methods *)

(** X7: an order method sends the symbol lookup first and then at most one
    order; when it sends the order, what the exchange answers or raises is
    the outcome of the call, unchanged: nothing is retried and nothing is
    sent after the order. *)
Theorem order_methods_send_one_order (self : BasicBot) (symbol side : string)
    (quantity price stop_price limit_price : pyfloat) (time_in_force : option string) :
  let sends_one (m : M (gmap string pyval)) :=
    sent m = [ReqExchangeInfo] \/
    exists params, sent m = [ReqExchangeInfo; ReqCreateOrder params] /\
                   outcome m = futures_create_order (client self) params in
  sends_one (place_market_order self symbol side quantity)
  /\ sends_one (place_limit_order self symbol side quantity price time_in_force)
  /\ sends_one (place_stop_limit_order self symbol side quantity stop_price
                  limit_price time_in_force).
Proof.
  intros sends_one. unfold sends_one.
  rewrite place_market_order_eq, place_limit_order_eq, place_stop_limit_order_eq.
  destruct (listed self (upper symbol)); cbn [negb]; [|repeat split; left; reflexivity].
  destruct (str_in (upper side) _); cbn [negb]; [|repeat split; left; reflexivity].
  repeat split.
  - destruct (float_le0 quantity); [left; reflexivity|].
    right. eexists. split; reflexivity.
  - destruct (float_le0 quantity || float_le0 price); [left; reflexivity|].
    destruct (str_in (default "GTC" time_in_force) _); cbn [negb];
      [|left; reflexivity].
    right. eexists. split; reflexivity.
  - destruct (float_le0 quantity || float_le0 stop_price || float_le0 limit_price);
      [left; reflexivity|].
    right. eexists. split; reflexivity.
Qed.

Lemma tif_ok_inv (t : string) :
  str_in t ["GTC"; "IOC"; "FOK"] = true -> t = "GTC" \/ t = "IOC" \/ t = "FOK".
Proof.
  unfold str_in. simpl. rewrite orb_false_r. intros H.
  apply orb_true_iff in H. destruct H as [H|H]; [apply String.eqb_eq in H; auto|].
  apply orb_true_iff in H. destruct H as [H|H]; apply String.eqb_eq in H; auto.
Qed.

Lemma in_two {A} (x a b : A) : In x [a; b] -> a <> x -> x = b.
Proof. intros [H|[H|[]]] Hne; [contradiction | symmetry; exact H]. Qed.

(** X8: an order is sent only when every check has passed.  Whenever an
    order method sends an order, the symbol is listed, the side is BUY or
    SELL, no number among quantity and prices is zero or negative, and,
    for a limit order, the time-in-force is GTC, IOC or FOK; the order
    carries the normalised arguments. *)
Theorem sent_orders_are_valid (self : BasicBot) (symbol side : string)
    (quantity price stop_price limit_price : pyfloat) (time_in_force : option string)
    (params : gmap string pyval) :
  (In (ReqCreateOrder params) (sent (place_market_order self symbol side quantity)) ->
     listed self (upper symbol) = true
     /\ (upper side = "BUY" \/ upper side = "SELL")
     /\ float_le0 quantity = false
     /\ params = {[ "symbol" := PStr (upper symbol); "side" := PStr (upper side);
                    "type" := PStr "MARKET"; "quantity" := PFloat quantity ]})
  /\ (In (ReqCreateOrder params)
         (sent (place_limit_order self symbol side quantity price time_in_force)) ->
     listed self (upper symbol) = true
     /\ (upper side = "BUY" \/ upper side = "SELL")
     /\ float_le0 quantity = false /\ float_le0 price = false
     /\ (default "GTC" time_in_force = "GTC" \/ default "GTC" time_in_force = "IOC" \/
         default "GTC" time_in_force = "FOK")
     /\ params = {[ "symbol" := PStr (upper symbol); "side" := PStr (upper side);
                    "type" := PStr "LIMIT"; "quantity" := PFloat quantity;
                    "price" := PFloat price;
                    "timeInForce" := PStr (default "GTC" time_in_force) ]})
  /\ (In (ReqCreateOrder params)
         (sent (place_stop_limit_order self symbol side quantity stop_price limit_price
                  time_in_force)) ->
     listed self (upper symbol) = true
     /\ (upper side = "BUY" \/ upper side = "SELL")
     /\ float_le0 quantity = false /\ float_le0 stop_price = false
     /\ float_le0 limit_price = false
     /\ params = {[ "symbol" := PStr (upper symbol); "side" := PStr (upper side);
                    "type" := PStr "STOP"; "quantity" := PFloat quantity;
                    "price" := PFloat limit_price; "stopPrice" := PFloat stop_price;
                    "timeInForce" := PStr (default "GTC" time_in_force) ]}).
Proof.
  rewrite place_market_order_eq, place_limit_order_eq, place_stop_limit_order_eq.
  assert (Hrej : forall e : exn,
             ~ In (ReqCreateOrder params) (sent (@rejected (gmap string pyval) e))).
  { intros e [H|[]]. discriminate H. }
  destruct (listed self (upper symbol)); cbn [negb];
    [|split; [|split]; intros H; apply Hrej in H; destruct H].
  destruct (str_in (upper side) ["BUY"; "SELL"]) eqn:Hside; cbn [negb];
    [|split; [|split]; intros H; apply Hrej in H; destruct H].
  apply side_ok_inv in Hside.
  split; [|split].
  - destruct (float_le0 quantity); [intros H; apply Hrej in H; destruct H|].
    intros H. apply in_two in H; [|discriminate]. injection H as ->.
    repeat split; assumption.
  - destruct (float_le0 quantity); [intros H; apply Hrej in H; destruct H|].
    destruct (float_le0 price); [intros H; apply Hrej in H; destruct H|]. cbn [orb].
    destruct (str_in (default "GTC" time_in_force) _) eqn:Htif; cbn [negb];
      [|intros H; apply Hrej in H; destruct H].
    apply tif_ok_inv in Htif.
    intros H. apply in_two in H; [|discriminate]. injection H as ->.
    repeat split; assumption.
  - destruct (float_le0 quantity); [intros H; apply Hrej in H; destruct H|].
    destruct (float_le0 stop_price); [intros H; apply Hrej in H; destruct H|].
    destruct (float_le0 limit_price); [intros H; apply Hrej in H; destruct H|].
    intros H. apply in_two in H; [|discriminate]. injection H as ->.
    repeat split; assumption.
Qed.

Lemma sent_orders_are_valid_example :
  listed (bot_of testnet_client) "BTCUSDT" = true
  /\ float_le0 (float_of_decimal false 1 2) = false.
Proof.
  pose proof (sent_orders_are_valid (bot_of testnet_client) "btcusdt" "buy"
                (float_of_decimal false 1 2) float_zero float_zero float_zero None
                {[ "symbol" := PStr "BTCUSDT"; "side" := PStr "BUY";
                   "type" := PStr "MARKET";
                   "quantity" := PFloat (float_of_decimal false 1 2) ]}) as (H & _ & _).
  destruct H as (H1 & _ & H3 & _); [right; left; reflexivity|].
  split; [exact H1 | exact H3].
Defined.

(** X9: the positivity checks let NaN through.  With a listed symbol and a
    valid side, a market order whose quantity is NaN is sent to the
    exchange, and so are a limit and a stop-limit order all of whose
    numbers are NaN. *)
Theorem nan_passes_positivity_checks (self : BasicBot) (symbol side : string) :
  listed self (upper symbol) = true ->
  upper side = "BUY" \/ upper side = "SELL" ->
  (exists params, place_market_order self symbol side S754_nan =
     Run (futures_create_order (client self) params)
         [ReqExchangeInfo; ReqCreateOrder params]
     /\ params !! "quantity" = Some (PFloat S754_nan))
  /\ (exists params, place_limit_order self symbol side S754_nan S754_nan None =
     Run (futures_create_order (client self) params)
         [ReqExchangeInfo; ReqCreateOrder params]
     /\ params !! "price" = Some (PFloat S754_nan))
  /\ (exists params,
     place_stop_limit_order self symbol side S754_nan S754_nan S754_nan None =
     Run (futures_create_order (client self) params)
         [ReqExchangeInfo; ReqCreateOrder params]
     /\ params !! "stopPrice" = Some (PFloat S754_nan)).
Proof.
  intros Hsym Hside.
  rewrite place_market_order_eq, place_limit_order_eq, place_stop_limit_order_eq.
  rewrite Hsym, (side_ok _ Hside). cbn.
  repeat split; eexists; split; reflexivity.
Qed.

Lemma nan_passes_positivity_checks_example :
  exists params, place_market_order (bot_of testnet_client) "ethusdt" "sell" S754_nan =
     Run (futures_create_order testnet_client params)
         [ReqExchangeInfo; ReqCreateOrder params]
     /\ params !! "quantity" = Some (PFloat S754_nan).
Proof.
  apply (nan_passes_positivity_checks (bot_of testnet_client) "ethusdt" "sell");
    [reflexivity | right; reflexivity].
Defined.

(** X10: symbol and side are matched without regard to case: calling an
    order method, or the symbol lookup, with the upper-case spelling of
    its symbol and side gives the same outcome and the same requests. *)
Theorem order_methods_ignore_case (self : BasicBot) (symbol side : string)
    (quantity price stop_price limit_price : pyfloat) (time_in_force : option string) :
  _validate_symbol self (upper symbol) = _validate_symbol self symbol
  /\ place_market_order self (upper symbol) (upper side) quantity =
     place_market_order self symbol side quantity
  /\ place_limit_order self (upper symbol) (upper side) quantity price time_in_force =
     place_limit_order self symbol side quantity price time_in_force
  /\ place_stop_limit_order self (upper symbol) (upper side) quantity stop_price
       limit_price time_in_force =
     place_stop_limit_order self symbol side quantity stop_price limit_price
       time_in_force.
Proof.
  rewrite !_validate_symbol_eq, !place_market_order_eq, !place_limit_order_eq,
    !place_stop_limit_order_eq.
  unfold invalid_symbol. rewrite !upper_idemp. repeat split.
Qed.

(** ** The connection test, the constructor and the query methods *)

Lemma io_bind_ret {A B} (a : A) (k : A -> IO B) (inp : list string) :
  io_bind (io_ret a) k inp = k a inp.
Proof. unfold io_bind, io_ret. simpl. destruct (k a inp); reflexivity. Qed.


Lemma io_bind_input {A} (k : string -> IO A) (line : string) (rest : list string) :
  io_bind input k (line :: rest) = k line rest.
Proof. unfold io_bind, input. simpl. destruct (k line rest); reflexivity. Qed.

Lemma io_bind_ok {A B} (m : IO A) (k : A -> IO B) (inp : list string)
    (a : A) (s : list wire) (rest : list string) :
  m inp = mkOut (Ok a) s rest ->
  io_bind m k inp =
    mkOut (io_outcome (k a rest)) (s ++ io_sent (k a rest)) (io_rest (k a rest)).
Proof. intros H. unfold io_bind. rewrite H. reflexivity. Qed.

Lemma io_bind_raise {A B} (m : IO A) (k : A -> IO B) (inp : list string)
    (e : exn) (s : list wire) (rest : list string) :
  m inp = mkOut (Raise e) s rest -> io_bind m k inp = mkOut (Raise e) s rest.
Proof. intros H. unfold io_bind. rewrite H. reflexivity. Qed.


Lemma io_try_raise {A} (body : IO A) (handler : exn -> IO A) (inp : list string)
    (e : exn) (s : list wire) (rest : list string) :
  body inp = mkOut (Raise e) s rest ->
  io_try body handler inp =
    mkOut (io_outcome (handler e rest)) (s ++ io_sent (handler e rest))
          (io_rest (handler e rest)).
Proof. intros H. unfold io_try. rewrite H. reflexivity. Qed.

(** A single request whose answer is passed on and whose exception is
    raised again. *)
Lemma io_pass_through {A} (w : wire) (answer : result A) (inp : list string) :
  io_try (io_bind (ask w answer) (fun x => io_ret x)) (fun e => io_raise e) inp =
  mkOut answer [w] inp.
Proof. unfold io_try, io_bind, ask, io_ret, io_raise. destruct answer; reflexivity. Qed.

(** X1: the connection test never raises and reads no input.  It pings
    first and asks for the account only when the ping succeeded, and it
    returns [True] exactly when both requests succeeded and the account
    has a total wallet balance. *)
Theorem test_connection_never_raises (self : Bot) (inp : list string) :
  exists b : bool,
    _test_connection self inp =
      mkOut (Ok b)
            (match futures_ping (endpoints self) with
             | Ok _ => [ReqPing; Base ReqAccount]
             | Raise _ => [ReqPing]
             end) inp
    /\ (b = true <->
        (exists u, futures_ping (endpoints self) = Ok u) /\
        (exists account, futures_account (client (basic self)) = Ok account /\
                         is_Some (acc_fields account !! "totalWalletBalance"))).
Proof.
  unfold _test_connection, io_try, io_bind, ask, io_lift, io_ret, getitem.
  destruct (futures_ping (endpoints self)) as [u|e]; cbn.
  - destruct (futures_account (client (basic self))) as [account|e]; cbn.
    + destruct (acc_fields account !! "totalWalletBalance") as [t|] eqn:Ht; cbn.
      * exists true. split; [reflexivity|]. split; [intros _|reflexivity].
        split; [eauto|]. exists account. rewrite Ht. eauto.
      * exists false. split; [reflexivity|]. split; [discriminate|].
        intros (_ & account' & Heq & [t Ht']). injection Heq as <-. congruence.
    + exists false. split; [destruct e; reflexivity|]. split; [discriminate|].
      intros (_ & account' & Heq & _). discriminate.
  - exists false. split; [destruct e; reflexivity|]. split; [discriminate|].
    intros ([u Hu] & _). discriminate.
Qed.



(** X3: [get_open_orders] asks for the orders of all symbols both when no
    symbol is given and when the empty string is given; a non-empty symbol
    is sent in upper case.  In each case the one answer, or the exception,
    of the exchange is the outcome. *)
Theorem open_orders_symbol_filter (self : Bot) (symbol : string) (inp : list string) :
  get_open_orders self None inp =
    mkOut (futures_get_open_orders (endpoints self) None) [ReqOpenOrders None] inp
  /\ get_open_orders self (Some "") inp = get_open_orders self None inp
  /\ (symbol <> "" ->
      get_open_orders self (Some symbol) inp =
        mkOut (futures_get_open_orders (endpoints self) (Some (upper symbol)))
              [ReqOpenOrders (Some (upper symbol))] inp).
Proof.
  unfold get_open_orders. split; [|split].
  - apply io_pass_through.
  - reflexivity.
  - intros Hne. apply String.eqb_neq in Hne. rewrite Hne. cbn [negb].
    apply io_pass_through.
Qed.

Lemma open_orders_symbol_filter_example :
  get_open_orders testnet_bot (Some "btcusdt") [] =
    mkOut (Ok []) [ReqOpenOrders (Some "BTCUSDT")] [].
Proof.
  apply (open_orders_symbol_filter testnet_bot "btcusdt" []). discriminate.
Defined.

(** X4: [cancel_order] checks nothing: without looking the symbol up and
    without asking for the order first, it sends the one cancel request
    with the symbol in upper case and passes on what the exchange answers
    or raises; spelling the symbol in upper case changes nothing. *)
Theorem cancel_order_sends_unchecked (self : Bot) (symbol : string) (order_id : Z)
    (inp : list string) :
  cancel_order self symbol order_id inp =
    mkOut (futures_cancel_order (endpoints self) (upper symbol) order_id)
          [ReqCancelOrder (upper symbol) order_id] inp
  /\ cancel_order self (upper symbol) order_id inp = cancel_order self symbol order_id inp.
Proof.
  unfold cancel_order. rewrite upper_idemp. split; [|reflexivity].
  apply io_pass_through.
Qed.

(** X5: [get_order_status] returns the order unchanged when the answer has
    a status, and raises [KeyError] when it has none, although the request
    succeeded; an exception of the exchange is raised again. *)
Theorem order_status_needs_status (self : Bot) (symbol : string) (order_id : Z)
    (inp : list string) :
  (forall order status,
     futures_get_order (endpoints self) (upper symbol) order_id = Ok order ->
     order !! "status" = Some status ->
     get_order_status self symbol order_id inp =
       mkOut (Ok order) [ReqGetOrder (upper symbol) order_id] inp)
  /\ (forall order,
     futures_get_order (endpoints self) (upper symbol) order_id = Ok order ->
     order !! "status" = None ->
     get_order_status self symbol order_id inp =
       mkOut (Raise (KeyError "status")) [ReqGetOrder (upper symbol) order_id] inp)
  /\ (forall e,
     futures_get_order (endpoints self) (upper symbol) order_id = Raise e ->
     get_order_status self symbol order_id inp =
       mkOut (Raise e) [ReqGetOrder (upper symbol) order_id] inp).
Proof.
  unfold get_order_status, io_try, io_bind, ask, io_lift, io_ret, io_raise, getitem.
  split; [|split].
  - intros order status -> Hs. cbn. rewrite Hs. reflexivity.
  - intros order -> Hs. cbn. rewrite Hs. reflexivity.
  - intros e ->. reflexivity.
Qed.

Lemma order_status_needs_status_example :
  get_order_status testnet_bot "btcusdt" 7 [] =
    mkOut (Raise (KeyError "status")) [ReqGetOrder "BTCUSDT" 7] [].
Proof.
  apply (order_status_needs_status testnet_bot "btcusdt" 7 [])
    with (order := {[ "orderId" := PInt 7; "symbol" := PStr "BTCUSDT" ]});
    reflexivity.
Defined.

Section ShellFacts.

Variable py_float : string -> result pyfloat.
Variable py_int : string -> result Z.

(** X6: [get_current_price] returns the price entry of the ticker read as
    a number; it raises [KeyError] when the ticker has no price and what
    [float] raises when the entry is not a number, in both cases after the
    one request. *)
Theorem current_price_reads_ticker (self : Bot) (symbol : string)
    (ticker : gmap string string) (inp : list string) :
  futures_symbol_ticker (endpoints self) (upper symbol) = Ok ticker ->
  get_current_price py_float self symbol inp =
    mkOut (match ticker !! "price" with
           | Some text => py_float text
           | None => Raise (KeyError "price")
           end) [ReqSymbolTicker (upper symbol)] inp.
Proof.
  intros Ht.
  unfold get_current_price, io_try, io_bind, ask, io_lift, io_ret, io_raise, getitem.
  rewrite Ht. cbn.
  destruct (ticker !! "price") as [text|]; cbn; [|reflexivity].
  destruct (py_float text); reflexivity.
Qed.

End ShellFacts.

Lemma current_price_reads_ticker_example :
  get_current_price float_of_numeral testnet_bot "btcusdt" [] =
    mkOut (Ok (float_of_decimal false 300005 1)) [ReqSymbolTicker "BTCUSDT"] [].
Proof.
  rewrite (current_price_reads_ticker float_of_numeral testnet_bot "btcusdt"
             {[ "symbol" := "BTCUSDT"; "price" := "30000.50" ]} [])
    by reflexivity.
  vm_compute. reflexivity.
Defined.

(** ** Errors of the account balance *)

Section BalanceErrors.

Variable py_float : string -> result pyfloat.

Local Abbreviation balance_body :=
  (fun (balance : balance) (asset : gmap string string) =>
     wallet <- lift (getitem asset "walletBalance") ;;
     wallet_value <- lift (py_float wallet) ;;
     if float_gt0 wallet_value then
       a <- lift (getitem asset "asset") ;;
       w <- lift (getitem asset "walletBalance") ;;
       v <- lift (getitem asset "availableBalance") ;;
       let entry : gmap string string :=
         {[ "asset" := a; "walletBalance" := w; "availableBalance" := v ]} in
       ret {| totalWalletBalance := totalWalletBalance balance;
              availableBalance := availableBalance balance;
              assets := assets balance ++ [entry] |}
     else ret balance).

Lemma bind_lift_raise {A B} (e : exn) (k : A -> M B) :
  bind (lift (Raise e)) k = Run (Raise e) [].
Proof. reflexivity. Qed.

Lemma bind_eq_ok {A B} (m : M A) (k : A -> M B) (a : A) :
  m = Run (Ok a) [] -> bind m k = k a.
Proof. intros ->. apply bind_ret. Qed.

Lemma bind_eq_raise {A B} (m : M A) (k : A -> M B) (e : exn) (s : list request) :
  m = Run (Raise e) s -> bind m k = Run (Raise e) s.
Proof. intros ->. reflexivity. Qed.

(** A well-formed asset takes the loop one round further. *)
Lemma balance_round (a : gmap string string) (b : balance) :
  well_formed_asset py_float a ->
  exists b', balance_body b a = Run (Ok b') [].
Proof.
  intros ([n Hn] & [v Hv] & [f Hf]). unfold wallet_value in Hf.
  destruct (a !! "walletBalance") as [w|] eqn:Hw; [|discriminate].
  destruct (py_float w) as [f'|] eqn:Hpf; [|discriminate].
  assert (En : getitem a "asset" = Ok n) by (unfold getitem; rewrite Hn; reflexivity).
  assert (Ew : getitem a "walletBalance" = Ok w)
    by (unfold getitem; rewrite Hw; reflexivity).
  assert (Ev : getitem a "availableBalance" = Ok v)
    by (unfold getitem; rewrite Hv; reflexivity).
  cbn beta. rewrite Ew, bind_lift_ok, Hpf, bind_lift_ok.
  destruct (float_gt0 f').
  - rewrite En, Ev, !bind_lift_ok. eexists. reflexivity.
  - eexists. reflexivity.
Qed.

Lemma balance_loop_fails (l1 l2 : list (gmap string string)) (a : gmap string string)
    (b : balance) (e : exn) :
  Forall (well_formed_asset py_float) l1 ->
  (forall b', balance_body b' a = Run (Raise e) []) ->
  for_each (l1 ++ a :: l2) b balance_body = Run (Raise e) [].
Proof.
  intros Hwf Ha. revert b. induction Hwf as [|x l1 Hx Hl IH]; intros b.
  - cbn [app for_each]. apply bind_eq_raise. apply Ha.
  - destruct (balance_round x b Hx) as [b' Hb'].
    cbn [app for_each]. rewrite (bind_eq_ok _ _ b' Hb'). apply IH.
Qed.

(** X11: one asset without a readable wallet balance makes the whole call
    fail: [get_account_balance] raises [KeyError] when the asset has no
    walletBalance entry and what [float] raises when the entry is not a
    number, wherever the asset stands in the list and however many assets
    before it were fine; no partial balance is returned. *)
Theorem balance_fails_on_unreadable_asset (self : BasicBot) (account : account_info)
    (total available : string) (l1 l2 : list (gmap string string))
    (a : gmap string string) :
  futures_account (client self) = Ok account ->
  acc_fields account !! "totalWalletBalance" = Some total ->
  acc_fields account !! "availableBalance" = Some available ->
  acc_assets account = Some (l1 ++ a :: l2)%list ->
  Forall (well_formed_asset py_float) l1 ->
  (a !! "walletBalance" = None ->
     get_account_balance py_float self = Run (Raise (KeyError "walletBalance")) [ReqAccount])
  /\ (forall w e, a !! "walletBalance" = Some w -> py_float w = Raise e ->
     get_account_balance py_float self = Run (Raise e) [ReqAccount]).
Proof.
  intros Hacc Htot Hav Hl Hwf.
  assert (Et : getitem (acc_fields account) "totalWalletBalance" = Ok total)
    by (unfold getitem; rewrite Htot; reflexivity).
  assert (Ea : getitem (acc_fields account) "availableBalance" = Ok available)
    by (unfold getitem; rewrite Hav; reflexivity).
  assert (Hfail : forall e, (forall b', balance_body b' a = Run (Raise e) []) ->
            get_account_balance py_float self = Run (Raise e) [ReqAccount]).
  { intros e Ha. unfold get_account_balance. rewrite Hacc, bind_call_ok. cbn beta.
    rewrite Et, Ea, Hl, !bind_lift_ok, (balance_loop_fails l1 l2 a _ e Hwf Ha).
    reflexivity. }
  split.
  - intros Hw. apply Hfail. intros b'. cbn beta. unfold getitem at 1. rewrite Hw.
    reflexivity.
  - intros w e Hw He. apply Hfail. intros b'. cbn beta. unfold getitem at 1.
    rewrite Hw, bind_lift_ok, He. reflexivity.
Qed.

End BalanceErrors.

Lemma balance_fails_on_unreadable_asset_example :
  get_account_balance float_of_numeral
    (bot_of {| futures_exchange_info := futures_exchange_info testnet_client;
               futures_account :=
                 Ok {| acc_fields := {[ "totalWalletBalance" := "100.50000000";
                                        "availableBalance" := "90.00000000" ]};
                       acc_assets := Some (testnet_assets ++
                                           [{[ "asset" := "XRP" ]};
                                            asset_entry "SOL" "1.0" "1.0"])%list |};
               futures_create_order := futures_create_order testnet_client |}) =
    Run (Raise (KeyError "walletBalance")) [ReqAccount].
Proof.
  refine (proj1 (balance_fails_on_unreadable_asset float_of_numeral _
            {| acc_fields := {[ "totalWalletBalance" := "100.50000000";
                                "availableBalance" := "90.00000000" ]};
               acc_assets := Some (testnet_assets ++
                                   [{[ "asset" := "XRP" ]};
                                    asset_entry "SOL" "1.0" "1.0"])%list |}
            "100.50000000" "90.00000000" testnet_assets
            [asset_entry "SOL" "1.0" "1.0"] {[ "asset" := "XRP" ]} _ _ _ _ _) _);
    try reflexivity.
  repeat constructor; eexists; vm_compute; reflexivity.
Defined.

(** ** The input helpers *)

Section InputFacts.

Variable py_float : string -> result pyfloat.

(** X12: [get_float_input] skips every line that is not a number or is a
    number that is zero or negative, and returns the first line that is
    accepted, leaving the lines after it unread; when every line is
    skipped it ends with the [EOFError] of [input].  It sends nothing. *)
Theorem get_float_input_skips_rejected (prompt : string)
    (skipped : list string) (line : string) (value : pyfloat) (rest : list string) :
  Forall (fun l => (exists msg, py_float l = Raise (ValueError msg)) \/
                   (exists v, py_float l = Ok v /\ float_le0 v = true)) skipped ->
  (py_float line = Ok value -> float_le0 value = false ->
     get_float_input py_float prompt (skipped ++ line :: rest)%list =
       mkOut (Ok value) [] rest)
  /\ get_float_input py_float prompt skipped = mkOut (Raise EOFError) [] [].
Proof.
  intros Hskip. induction Hskip as [|l skipped Hl Hs IH].
  - split; [|reflexivity]. intros Hv Hle. cbn. rewrite Hv, Hle. reflexivity.
  - destruct IH as [IH1 IH2].
    split; [intros Hv Hle|]; cbn;
      destruct Hl as [[msg Hl]|(v & Hl & Hv')]; rewrite Hl; try rewrite Hv'; auto.
Qed.

Lemma get_float_input_inv (prompt : string) (inp : list string) :
  (forall value, io_outcome (get_float_input py_float prompt inp) = Ok value ->
     float_le0 value = false /\ exists line, In line inp /\ py_float line = Ok value)
  /\ (forall msg, io_outcome (get_float_input py_float prompt inp) <>
                  Raise (ValueError msg))
  /\ io_sent (get_float_input py_float prompt inp) = []
  /\ io_rest (get_float_input py_float prompt inp) `suffix_of` inp.
Proof.
  induction inp as [|line rest (IH1 & IH2 & IH3 & IH4)].
  - cbn. repeat split; try discriminate. reflexivity.
  - cbn [get_float_input].
    destruct (py_float line) as [v|e] eqn:Hl.
    + destruct (float_le0 v) eqn:Hle.
      * split; [|split; [|split]]; auto.
        -- intros value Hval. destruct (IH1 value Hval) as (H1 & l & Hin & Hpl).
           split; [exact H1|]. exists l. split; [right; exact Hin | exact Hpl].
        -- apply suffix_cons_r. exact IH4.
      * cbn. split; [|split; [|split]]; try discriminate; try reflexivity.
        -- intros value Hval. injection Hval as <-. split; [exact Hle|].
           exists line. split; [left; reflexivity | exact Hl].
        -- apply suffix_cons_r. reflexivity.
    + assert (Hskip :
        (forall value, io_outcome (get_float_input py_float prompt rest) = Ok value ->
           float_le0 value = false /\
           exists l, In l (line :: rest) /\ py_float l = Ok value)).
      { intros value Hval. destruct (IH1 value Hval) as (H1 & l & Hin & Hpl).
        split; [exact H1|]. exists l. split; [right; exact Hin | exact Hpl]. }
      destruct e; cbn;
        (split; [|split; [|split]];
         [first [exact Hskip | discriminate]
         | first [exact IH2 | discriminate]
         | first [exact IH3 | reflexivity]
         | apply suffix_cons_r; first [exact IH4 | reflexivity]]).
Qed.

(** X13: what [get_float_input] returns passes the positivity check of
    the order methods and is the reading of one of the lines; nothing is
    sent while it reads. *)
Theorem get_float_input_result (prompt : string) (inp : list string)
    (value : pyfloat) :
  io_outcome (get_float_input py_float prompt inp) = Ok value ->
  float_le0 value = false
  /\ (exists line, In line inp /\ py_float line = Ok value)
  /\ io_sent (get_float_input py_float prompt inp) = [].
Proof.
  intros H. destruct (get_float_input_inv prompt inp) as (H1 & _ & H3 & _).
  destruct (H1 value H) as [Hle Hline]. repeat split; assumption.
Qed.

(** X21: [get_float_input] never lets the [ValueError] of [float] out:
    whatever is typed, it returns a number or ends with the exception
    that ended the reading, and the lines it leaves are an end piece of
    the lines it was given. *)
Theorem get_float_input_no_value_error (prompt : string) (inp : list string)
    (msg : string) :
  io_outcome (get_float_input py_float prompt inp) <> Raise (ValueError msg)
  /\ io_rest (get_float_input py_float prompt inp) `suffix_of` inp.
Proof.
  destruct (get_float_input_inv prompt inp) as (_ & H2 & _ & H4).
  split; [apply H2 | exact H4].
Qed.

End InputFacts.

Lemma get_float_input_skips_rejected_example :
  get_float_input float_of_numeral "Enter quantity: " ["abc"; "-1"; "0"; "0.01"; "yes"] =
    mkOut (Ok (float_of_decimal false 1 2)) [] ["yes"].
Proof.
  apply (get_float_input_skips_rejected float_of_numeral "Enter quantity: "
           ["abc"; "-1"; "0"] "0.01" (float_of_decimal false 1 2) ["yes"]);
    [|reflexivity|reflexivity].
  constructor; [left; eexists; reflexivity|].
  constructor; [right; eexists; split; reflexivity|].
  constructor; [right; eexists; split; reflexivity|].
  constructor.
Defined.

Lemma get_float_input_result_example :
  float_le0 (float_of_decimal false 1 2) = false.
Proof.
  apply (get_float_input_result float_of_numeral "Enter quantity: "
           ["abc"; "-1"; "0"; "0.01"; "yes"] (float_of_decimal false 1 2)).
  reflexivity.
Defined.

(** X14: [get_choice_input] skips every line whose upper-case spelling is
    not among the valid choices and returns the upper-case spelling of the
    first line that is, leaving the lines after it unread; when every line
    is skipped it ends with the [EOFError] of [input]. *)
Theorem get_choice_input_skips_invalid (prompt : string) (valid_choices : list string)
    (skipped : list string) (line : string) (rest : list string) :
  Forall (fun l => upper l ∉ valid_choices) skipped ->
  (upper line ∈ valid_choices ->
     get_choice_input prompt valid_choices (skipped ++ line :: rest)%list =
       mkOut (Ok (upper line)) [] rest)
  /\ get_choice_input prompt valid_choices skipped = mkOut (Raise EOFError) [] [].
Proof.
  intros Hskip. induction Hskip as [|l skipped Hl Hs IH].
  - split; [|reflexivity]. intros Hin. cbn.
    apply str_in_spec in Hin. rewrite Hin. reflexivity.
  - destruct IH as [IH1 IH2].
    assert (E : str_in (upper l) valid_choices = false).
    { destruct (str_in (upper l) valid_choices) eqn:E; [|reflexivity].
      apply str_in_spec in E. contradiction. }
    split; [intros Hin|]; cbn; rewrite E; auto.
Qed.

Lemma get_choice_input_skips_invalid_example :
  get_choice_input "Enter side (BUY/SELL): " ["BUY"; "SELL"] ["hold"; ""; "sell"; "1"] =
    mkOut (Ok "SELL") [] ["1"].
Proof.
  apply (get_choice_input_skips_invalid "Enter side (BUY/SELL): " ["BUY"; "SELL"]
           ["hold"; ""] "sell" ["1"]).
  - repeat constructor; intros H; apply str_in_spec in H; discriminate H.
  - apply str_in_spec. reflexivity.
Defined.

Lemma get_choice_input_inv (prompt : string) (valid_choices : list string)
    (inp : list string) :
  (forall choice,
     io_outcome (get_choice_input prompt valid_choices inp) = Ok choice ->
     choice ∈ valid_choices /\ upper choice = choice /\
     exists line, In line inp /\ choice = upper line)
  /\ io_sent (get_choice_input prompt valid_choices inp) = []
  /\ io_rest (get_choice_input prompt valid_choices inp) `suffix_of` inp.
Proof.
  induction inp as [|line rest (IH1 & IH2 & IH3)].
  - cbn. repeat split; try discriminate. reflexivity.
  - cbn [get_choice_input].
    destruct (str_in (upper line) valid_choices) eqn:E; cbn.
    + split; [|split]; [|reflexivity|apply suffix_cons_r; reflexivity].
      intros choice Hc. injection Hc as <-.
      split; [apply str_in_spec; exact E|]. split; [apply upper_idemp|].
      exists line. split; [left; reflexivity | reflexivity].
    + split; [|split]; [|exact IH2|apply suffix_cons_r; exact IH3].
      intros choice Hc. destruct (IH1 choice Hc) as (H1 & H2 & l & Hin & Hl).
      split; [exact H1|]. split; [exact H2|].
      exists l. split; [right; exact Hin | exact Hl].
Qed.

(** X15: what [get_choice_input] returns is one of the valid choices and
    is in upper case, so a valid choice that is not spelled in upper case
    can never be selected; it is the upper-case spelling of one of the
    lines, and nothing is sent. *)
Theorem get_choice_input_result (prompt : string) (valid_choices : list string)
    (inp : list string) (choice : string) :
  io_outcome (get_choice_input prompt valid_choices inp) = Ok choice ->
  choice ∈ valid_choices
  /\ upper choice = choice
  /\ (exists line, In line inp /\ choice = upper line)
  /\ io_sent (get_choice_input prompt valid_choices inp) = [].
Proof.
  intros H. destruct (get_choice_input_inv prompt valid_choices inp) as (H1 & H2 & _).
  destruct (H1 choice H) as (Hin & Hup & Hline). repeat split; assumption.
Qed.

Lemma get_choice_input_result_example :
  "SELL" ∈ ["BUY"; "SELL"].
Proof.
  apply (get_choice_input_result "Enter side (BUY/SELL): " ["BUY"; "SELL"]
           ["hold"; ""; "sell"; "1"] "SELL").
  reflexivity.
Defined.

(** ** The shell: what is read and what is sent *)

(** An action is [consuming] when the lines it leaves are an end piece of
    the lines it was given, and [quiet] when it sends no order as long as
    no line it is given reads "yes" in lower case. *)
Abbreviation consuming m :=
  (forall inp : list string, io_rest (m inp) `suffix_of` inp).

Abbreviation unconfirmed inp := (Forall (fun l : string => lower l <> "yes") inp).

Abbreviation no_order s :=
  (forall params : gmap string pyval, ~ In (Base (ReqCreateOrder params)) s).

Abbreviation quiet m :=
  (forall inp : list string, unconfirmed inp -> no_order (io_sent (m inp))).

Lemma unconfirmed_suffix (l1 l2 : list string) :
  l1 `suffix_of` l2 -> unconfirmed l2 -> unconfirmed l1.
Proof. intros [k ->] H. apply Forall_app in H. apply H. Qed.

Lemma consuming_ret {A} (a : A) : consuming (io_ret a).
Proof. intros inp. reflexivity. Qed.

Lemma consuming_raise {A} (e : exn) : consuming (@io_raise A e).
Proof. intros inp. reflexivity. Qed.

Lemma consuming_lift {A} (r : result A) : consuming (io_lift r).
Proof. intros inp. reflexivity. Qed.

Lemma consuming_ask {A} (w : wire) (r : result A) : consuming (ask w r).
Proof. intros inp. reflexivity. Qed.

Lemma consuming_of_M {A} (m : M A) : consuming (of_M m).
Proof. intros inp. reflexivity. Qed.

Lemma consuming_input : consuming input.
Proof. intros [|line rest]; cbn; [reflexivity|]. apply suffix_cons_r. reflexivity. Qed.

Lemma consuming_bind {A B} (m : IO A) (k : A -> IO B) :
  consuming m -> (forall a, consuming (k a)) -> consuming (io_bind m k).
Proof.
  intros Hm Hk inp. unfold io_bind. specialize (Hm inp).
  destruct (io_outcome (m inp)) as [a|e]; cbn; [|exact Hm].
  etransitivity; [apply Hk | exact Hm].
Qed.

Lemma consuming_try {A} (body : IO A) (handler : exn -> IO A) :
  consuming body -> (forall e, consuming (handler e)) -> consuming (io_try body handler).
Proof.
  intros Hm Hk inp. unfold io_try. specialize (Hm inp).
  destruct (io_outcome (body inp)) as [a|e]; cbn; [exact Hm|].
  etransitivity; [apply Hk | exact Hm].
Qed.

Lemma consuming_for {A} (l : list A) (body : A -> IO unit) :
  (forall x, consuming (body x)) -> consuming (io_for l body).
Proof.
  intros Hb. induction l as [|x l IH]; cbn [io_for].
  - apply consuming_ret.
  - apply consuming_bind; [apply Hb | intros _; exact IH].
Qed.

Lemma quiet_ret {A} (a : A) : quiet (io_ret a).
Proof. intros inp _ p []. Qed.

Lemma quiet_raise {A} (e : exn) : quiet (@io_raise A e).
Proof. intros inp _ p []. Qed.

Lemma quiet_lift {A} (r : result A) : quiet (io_lift r).
Proof. intros inp _ p []. Qed.

Lemma quiet_input : quiet input.
Proof. intros [|line rest] _ p []. Qed.

Lemma quiet_ask {A} (w : wire) (r : result A) :
  (forall params, w <> Base (ReqCreateOrder params)) -> quiet (ask w r).
Proof. intros Hw inp _ p [H|[]]. exact (Hw p H). Qed.

Lemma quiet_bind {A B} (m : IO A) (k : A -> IO B) :
  consuming m -> quiet m -> (forall a, quiet (k a)) -> quiet (io_bind m k).
Proof.
  intros Hc Hm Hk inp Hinp p. unfold io_bind.
  specialize (Hc inp). specialize (Hm inp Hinp p).
  destruct (io_outcome (m inp)) as [a|e]; cbn; [|exact Hm].
  intros Hin. apply in_app_or in Hin. destruct Hin as [Hin|Hin]; [exact (Hm Hin)|].
  exact (Hk a _ (unconfirmed_suffix _ _ Hc Hinp) p Hin).
Qed.

Lemma quiet_try {A} (body : IO A) (handler : exn -> IO A) :
  consuming body -> quiet body -> (forall e, quiet (handler e)) ->
  quiet (io_try body handler).
Proof.
  intros Hc Hm Hk inp Hinp p. unfold io_try.
  specialize (Hc inp). specialize (Hm inp Hinp p).
  destruct (io_outcome (body inp)) as [a|e]; cbn; [exact Hm|].
  intros Hin. apply in_app_or in Hin. destruct Hin as [Hin|Hin]; [exact (Hm Hin)|].
  exact (Hk e _ (unconfirmed_suffix _ _ Hc Hinp) p Hin).
Qed.

Lemma quiet_for {A} (l : list A) (body : A -> IO unit) :
  (forall x, consuming (body x)) -> (forall x, quiet (body x)) -> quiet (io_for l body).
Proof.
  intros Hc Hb. induction l as [|x l IH]; cbn [io_for].
  - apply quiet_ret.
  - apply quiet_bind; [apply Hc | apply Hb | intros _; exact IH].
Qed.

(** The confirmation: what follows a line that does not read "yes". *)
Lemma quiet_confirm {A} (yes no : IO A) :
  quiet no ->
  quiet (io_bind input (fun confirm =>
           if String.eqb (lower confirm) "yes" then yes else no)).
Proof.
  intros Hno [|line rest] Hinp p; [intros []|].
  rewrite io_bind_input. inversion Hinp as [|? ? Hline Hrest]; subst.
  apply String.eqb_neq in Hline. rewrite Hline. exact (Hno rest Hrest p).
Qed.

Section ShellRuns.

Variable py_float : string -> result pyfloat.
Variable py_int : string -> result Z.

Lemma consuming_float (prompt : string) : consuming (get_float_input py_float prompt).
Proof. intros inp. apply get_float_input_inv. Qed.

Lemma consuming_choice (prompt : string) (valid_choices : list string) :
  consuming (get_choice_input prompt valid_choices).
Proof. intros inp. apply get_choice_input_inv. Qed.

Lemma quiet_float (prompt : string) : quiet (get_float_input py_float prompt).
Proof.
  intros inp _ p.
  destruct (get_float_input_inv py_float prompt inp) as (_ & _ & -> & _).
  intros [].
Qed.

Lemma quiet_choice (prompt : string) (valid_choices : list string) :
  quiet (get_choice_input prompt valid_choices).
Proof.
  intros inp _ p.
  destruct (get_choice_input_inv prompt valid_choices inp) as (_ & -> & _).
  intros [].
Qed.

Ltac consume :=
  repeat first
    [ intro
    | apply consuming_ret | apply consuming_raise | apply consuming_lift
    | apply consuming_ask | apply consuming_of_M | apply consuming_input
    | apply consuming_float | apply consuming_choice
    | apply consuming_bind | apply consuming_try | apply consuming_for
    | match goal with
      | |- context [if ?b then _ else _] => destruct b
      | |- context [match ?e with _ => _ end] => destruct e
      end ].

Lemma consuming_menu_action (bot : Bot) (choice : string) :
  consuming (menu_action py_float py_int bot choice).
Proof.
  unfold menu_action, read_symbol, read_order_id, get_open_orders, cancel_order,
    get_order_status, get_current_price.
  consume.
Qed.

Lemma sent_bind {A B} (m : M A) (k : A -> M B) :
  sent (bind m k) =
  (sent m ++ match outcome m with Ok a => sent (k a) | Raise _ => [] end)%list.
Proof.
  unfold bind. destruct (outcome m); cbn; [reflexivity|].
  rewrite app_nil_r. reflexivity.
Qed.

Lemma sent_try_reraise {A} (body : M A) :
  sent (try_except body (fun e => raise e)) = sent body.
Proof.
  unfold try_except. destruct (outcome body); cbn; [reflexivity|].
  apply app_nil_r.
Qed.

(** [get_account_balance] sends its one request whatever happens. *)
Lemma get_account_balance_sent (self : BasicBot) :
  sent (get_account_balance py_float self) = [ReqAccount].
Proof.
  assert (Hloop : forall l b, sent (for_each l b (fun balance asset =>
         wallet <- lift (getitem asset "walletBalance") ;;
         wallet_value <- lift (py_float wallet) ;;
         if float_gt0 wallet_value then
           a <- lift (getitem asset "asset") ;;
           w <- lift (getitem asset "walletBalance") ;;
           v <- lift (getitem asset "availableBalance") ;;
           let entry : gmap string string :=
             {[ "asset" := a; "walletBalance" := w; "availableBalance" := v ]} in
           ret {| totalWalletBalance := totalWalletBalance balance;
                  availableBalance := availableBalance balance;
                  assets := assets balance ++ [entry] |}
         else ret balance)) = []).
  { induction l as [|x l IH]; intros b; [reflexivity|].
    cbn [for_each]. unfold bind at 1.
    destruct (getitem x "walletBalance") as [w|]; [|reflexivity].
    rewrite bind_lift_ok.
    destruct (py_float w) as [f|]; [|reflexivity]. rewrite bind_lift_ok.
    destruct (float_gt0 f).
    - destruct (getitem x "asset") as [n|]; [|reflexivity]. rewrite bind_lift_ok.
      destruct (getitem x "availableBalance") as [v|]; [|reflexivity].
      rewrite bind_lift_ok. cbn. apply IH.
    - cbn. apply IH. }
  unfold get_account_balance. rewrite sent_try_reraise, sent_bind.
  cbn [call sent outcome].
  destruct (futures_account (client self)) as [account|e]; [|reflexivity].
  rewrite sent_bind. cbn [lift sent outcome].
  destruct (getitem (acc_fields account) "totalWalletBalance"); [|reflexivity].
  rewrite sent_bind. cbn [lift sent outcome].
  destruct (getitem (acc_fields account) "availableBalance"); [|reflexivity].
  rewrite sent_bind. cbn [lift sent outcome].
  destruct (acc_assets account) as [l|]; [|reflexivity].
  rewrite sent_bind, Hloop.
  match goal with |- context [outcome ?m] => destruct (outcome m) end; reflexivity.
Qed.

Lemma quiet_balance (self : BasicBot) : quiet (of_M (get_account_balance py_float self)).
Proof.
  intros inp _ p. cbn [of_M io_sent]. rewrite get_account_balance_sent.
  intros [H|[]]. discriminate H.
Qed.

Ltac hush :=
  repeat first
    [ apply quiet_ret | apply quiet_raise | apply quiet_lift | apply quiet_input
    | apply quiet_float | apply quiet_choice | apply quiet_balance
    | apply quiet_confirm
    | apply quiet_ask; intros; discriminate
    | apply quiet_bind; [solve [consume] | | ]
    | apply quiet_try; [solve [consume] | | ]
    | apply quiet_for; [solve [consume] | ]
    | match goal with
      | |- context [if ?b then _ else _] => destruct b
      | |- context [match ?e with _ => _ end] => destruct e
      | |- forall _ : list string, _ => fail 1
      | |- forall _, _ => intro
      end ].

Lemma quiet_menu_action (bot : Bot) (choice : string) :
  quiet (menu_action py_float py_int bot choice).
Proof.
  unfold menu_action, read_symbol, read_order_id, get_open_orders, cancel_order,
    get_order_status, get_current_price.
  hush.
Qed.

Lemma consuming_main_loop (bot_at : nat -> Bot) (fuel n : nat) :
  consuming (main_loop py_float py_int bot_at fuel n).
Proof.
  revert n. induction fuel as [|fuel IH]; intros n; cbn [main_loop].
  - apply consuming_ret.
  - apply consuming_bind; [apply consuming_input|]. intros line.
    apply consuming_bind.
    + apply consuming_try; [apply consuming_menu_action|]. intros e. destruct e; consume.
    + intros [|]; [apply consuming_ret|].
      apply consuming_bind; [apply consuming_input|]. intros _. apply IH.
Qed.

Lemma quiet_main_loop (bot_at : nat -> Bot) (fuel n : nat) :
  quiet (main_loop py_float py_int bot_at fuel n).
Proof.
  revert n. induction fuel as [|fuel IH]; intros n; cbn [main_loop].
  - apply quiet_ret.
  - apply quiet_bind; [apply consuming_input | apply quiet_input |]. intros line.
    apply quiet_bind.
    + apply consuming_try; [apply consuming_menu_action|]. intros e. destruct e; consume.
    + apply quiet_try; [apply consuming_menu_action | apply quiet_menu_action |].
      intros e. destruct e; apply quiet_ret.
    + intros [|]; [apply quiet_ret|].
      apply quiet_bind; [apply consuming_input | apply quiet_input |].
      intros _. apply IH.
Qed.

Lemma consuming_init (api_key api_secret : string) (testnet : bool)
    (new_client : result (Client * Endpoints)) :
  consuming (__init__ api_key api_secret testnet new_client).
Proof. unfold __init__, _test_connection. consume. Qed.

Lemma quiet_init (api_key api_secret : string) (testnet : bool)
    (new_client : result (Client * Endpoints)) :
  quiet (__init__ api_key api_secret testnet new_client).
Proof. unfold __init__, _test_connection. hush. Qed.

(** X17: without a line that reads "yes" (in any mix of upper and lower
    case) the shell never sends an order: whatever is typed otherwise and
    whatever the exchange answers, no order request leaves [main]. *)
Theorem main_sends_no_unconfirmed_order (env_key env_secret : option string)
    (connect : option exn) (world : nat -> Client * Endpoints) (fuel : nat)
    (inp : list string) (params : gmap string pyval) :
  Forall (fun line => lower line <> "yes") inp ->
  ~ In (Base (ReqCreateOrder params))
       (io_sent (main py_float py_int env_key env_secret connect world fuel inp)).
Proof.
  intros Hinp. revert params. revert inp Hinp. unfold main.
  apply quiet_bind; [solve [consume] | hush |]. intros credentials.
  cbv zeta.
  apply quiet_try.
  - apply consuming_bind; [apply consuming_init|]. intros _. apply consuming_main_loop.
  - apply quiet_bind; [apply consuming_init | apply quiet_init |].
    intros _. apply quiet_main_loop.
  - intros e. apply quiet_ret.
Qed.

Lemma io_bind_outcome_inv {A B} (m : IO A) (k : A -> IO B) (inp : list string) (b : B) :
  io_outcome (io_bind m k inp) = Ok b ->
  exists a, io_outcome (m inp) = Ok a /\ io_outcome (k a (io_rest (m inp))) = Ok b.
Proof.
  unfold io_bind. destruct (io_outcome (m inp)) as [a|e]; cbn; [|discriminate].
  intros H. exists a. split; [reflexivity | exact H].
Qed.

(** With more fuel than lines the loop has ended when [main_loop]
    returns. *)
Lemma main_loop_ends (bot_at : nat -> Bot) (fuel n : nat) (inp : list string) :
  length inp < fuel ->
  io_outcome (main_loop py_float py_int bot_at fuel n inp) <> Ok None.
Proof.
  revert n inp. induction fuel as [|fuel IH]; intros n inp Hlen; [inversion Hlen|].
  cbn [main_loop]. intros H.
  apply io_bind_outcome_inv in H. destruct H as (line & Hline & H).
  destruct inp as [|line' rest]; [discriminate Hline|]. cbn in Hline, H.
  apply io_bind_outcome_inv in H. destruct H as (stop & _ & H).
  match type of H with context [io_rest (io_try ?b ?h rest)] =>
    assert (Hsuf : io_rest (io_try b h rest) `suffix_of` rest)
      by (apply consuming_try; [apply consuming_menu_action | intros e; destruct e; consume]);
    destruct (io_rest (io_try b h rest)) as [|enter rest'] end.
  - destruct stop; [discriminate H|].
    apply io_bind_outcome_inv in H. destruct H as (l & Hl & _). discriminate Hl.
  - destruct stop; [discriminate H|].
    apply io_bind_outcome_inv in H. destruct H as (l & _ & H). cbn in H.
    apply (IH (S n) rest'); [|exact H].
    apply suffix_length in Hsuf. cbn in Hsuf, Hlen. lia.
Qed.

Lemma io_try_default_outcome {A} (body : IO A) (a : A) (inp : list string) :
  io_outcome (io_try body (fun e => io_ret a) inp) =
  match io_outcome (body inp) with Ok x => Ok x | Raise _ => Ok a end.
Proof. unfold io_try. destruct (body inp) as [[x|e] s rest]; reflexivity. Qed.

(** X16: [main] comes to an end on every finite input.  Given more fuel
    than there are lines, the loop is over when [main] returns, and [main]
    returns normally, whatever is typed and whatever the exchange answers
    or raises, with one exception: when a credential is missing from the
    environment (unset or empty) and fewer than two lines can be read,
    the [EOFError] of [input] leaves [main]. *)
Theorem main_returns (env_key env_secret : option string) (connect : option exn)
    (world : nat -> Client * Endpoints) (fuel : nat) (inp : list string) :
  length inp < fuel ->
  let missing (v : option string) :=
    match v with None => true | Some s => String.eqb s "" end in
  io_outcome (main py_float py_int env_key env_secret connect world fuel inp) =
    if (missing env_key || missing env_secret) && (length inp <? 2)%nat
    then Raise EOFError
    else Ok (Some tt).
Proof.
  intros Hlen missing. subst missing. unfold main. cbv beta zeta.
  assert (Hbody : forall (api_key api_secret : string) (rest : list string),
    length rest < fuel ->
    io_outcome (io_try
      (io_bind (__init__ api_key api_secret true
                  match connect with Some e => Raise e | None => Ok (world O) end)
         (fun _ => main_loop py_float py_int
            (fun n => {| basic := {| api_key := api_key; api_secret := api_secret;
                                     testnet := true; client := (world n).1 |};
                         endpoints := (world n).2 |}) fuel 1))
      (fun e => io_ret (Some tt)) rest) = Ok (Some tt)).
  { intros api_key api_secret rest Hrest. rewrite io_try_default_outcome.
    match goal with |- match ?o with _ => _ end = _ => destruct o as [[[]|]|e] eqn:E end;
      try reflexivity.
    apply io_bind_outcome_inv in E. destruct E as (bot & _ & E).
    exfalso. revert E. apply main_loop_ends.
    eapply Nat.le_lt_trans; [|exact Hrest].
    apply suffix_length. apply consuming_init. }
  match goal with |- context [if (?b && _) then _ else _] => destruct b end;
    cbn [andb].
  - destruct inp as [|key_line [|secret_line rest]]; [reflexivity | reflexivity |].
    cbn [length Nat.ltb Nat.leb].
    erewrite io_bind_ok
      with (a := (strip key_line, strip secret_line)) (s := []) (rest := rest);
      [|reflexivity].
    cbn [io_outcome fst snd]. apply Hbody. cbn in Hlen. lia.
  - rewrite io_bind_ret. cbn [fst snd]. apply Hbody. exact Hlen.
Qed.

(** *** The order flows of the menu *)

(** What the shell prints of an order answer sends nothing and reads
    nothing. *)
Lemma print_order_silent (response : gmap string pyval) (inp : list string) :
  let o := (io_lift (getitem response "orderId") ;;
            io_lift (getitem response "status") ;; io_ret false)%io inp in
  io_sent o = [] /\ io_rest o = inp.
Proof.
  unfold io_bind, io_lift, io_ret. cbn.
  destruct (getitem response "orderId"); cbn; [|split; reflexivity].
  destruct (getitem response "status"); cbn; split; reflexivity.
Qed.

Lemma of_M_then_print (m : M (gmap string pyval)) (inp : list string) :
  let o := (response <- of_M m ;;
            io_lift (getitem response "orderId") ;;
            io_lift (getitem response "status") ;; io_ret false)%io inp in
  io_sent o = map Base (sent m) /\ io_rest o = inp /\
  (forall e, outcome m = Raise e -> io_outcome o = Raise e).
Proof.
  cbv zeta. destruct (outcome m) as [response|e] eqn:E.
  - erewrite io_bind_ok
      with (a := response) (s := map Base (sent m)) (rest := inp);
      [|unfold of_M; rewrite E; reflexivity].
    pose proof (print_order_silent response inp) as H. cbv zeta in H.
    destruct H as [Hs Hr]. cbn [io_outcome io_sent io_rest].
    rewrite Hs, Hr, app_nil_r. repeat split. discriminate.
  - erewrite io_bind_raise
      with (e := e) (s := map Base (sent m)) (rest := inp);
      [|unfold of_M; rewrite E; reflexivity].
    repeat split. intros e' H. injection H as ->. reflexivity.
Qed.

(** X18: in the market-order flow the confirmation decides.  After the
    symbol, an accepted side and an accepted quantity have been read, a
    line that reads "yes" in any mix of case makes the shell call
    [place_market_order] with the trimmed, upper-case symbol, the
    upper-case side and the number read, and exactly the requests of that
    call are sent; any other line sends nothing.  In both cases the flow
    stops reading after the confirmation. *)
Theorem market_flow_confirmation (bot : Bot) (symbol_line side_line quantity_line
    confirm : string) (quantity : pyfloat) (rest : list string) :
  upper side_line = "BUY" \/ upper side_line = "SELL" ->
  py_float quantity_line = Ok quantity ->
  float_le0 quantity = false ->
  let o := menu_action py_float py_int bot "2"
             (symbol_line :: side_line :: quantity_line :: confirm :: rest) in
  io_rest o = rest
  /\ (lower confirm = "yes" ->
      io_sent o = map Base (sent (place_market_order (basic bot)
                                    (upper (strip symbol_line)) (upper side_line)
                                    quantity)))
  /\ (lower confirm <> "yes" -> io_sent o = [] /\ io_outcome o = Ok false).
Proof.
  intros Hside Hq Hle. unfold menu_action.
  change ("2" =? "1") with false. change ("2" =? "2") with true. cbv iota.
  erewrite io_bind_ok
    with (a := upper (strip symbol_line)) (s := [])
         (rest := side_line :: quantity_line :: confirm :: rest); [|reflexivity].
  erewrite io_bind_ok
    with (a := upper side_line) (s := []) (rest := quantity_line :: confirm :: rest);
    [|cbn [get_choice_input]; rewrite (side_ok _ Hside); reflexivity].
  erewrite io_bind_ok
    with (a := quantity) (s := []) (rest := confirm :: rest);
    [|cbn [get_float_input]; rewrite Hq, Hle; reflexivity].
  rewrite io_bind_input. cbn [io_outcome io_sent io_rest app].
  destruct (lower confirm =? "yes") eqn:Hc.
  - destruct (of_M_then_print (place_market_order (basic bot)
                (upper (strip symbol_line)) (upper side_line) quantity) rest)
      as (Hs & Hr & _).
    cbv zeta in Hs, Hr. rewrite Hs, Hr.
    split; [reflexivity|]. split; [reflexivity|].
    apply String.eqb_eq in Hc. intros Hne. contradiction.
  - cbn. split; [reflexivity|]. split; [|split; reflexivity].
    apply String.eqb_neq in Hc. intros Heq. contradiction.
Qed.

(** X19: the side and number checks of the order methods cannot fail in
    the shell.  Whatever is typed into the market, limit or stop-limit
    flow, the flow either sends nothing, or is rejected for its symbol
    right after the symbol lookup, or sends the lookup and the order: the
    sides and numbers that reach an order method have already been
    accepted by the input helpers, and the time-in-force is the default. *)
Theorem order_flows_fail_only_on_symbol (bot : Bot) (inp : list string) :
  let only_symbol (o : Out bool) :=
    io_sent o = [] \/
    (exists s, io_outcome o = Raise (ValueError ("Invalid symbol: " ++ s)) /\
               io_sent o = [Base ReqExchangeInfo]) \/
    (exists params, io_sent o = [Base ReqExchangeInfo; Base (ReqCreateOrder params)]) in
  only_symbol (menu_action py_float py_int bot "2" inp)
  /\ only_symbol (menu_action py_float py_int bot "3" inp)
  /\ only_symbol (menu_action py_float py_int bot "4" inp).
Proof.
  intros only_symbol.
  assert (Hbind : forall A (m : IO A) (k : A -> IO bool) (i : list string),
            io_sent (m i) = [] ->
            (forall a, io_outcome (m i) = Ok a -> only_symbol (k a (io_rest (m i)))) ->
            only_symbol (io_bind m k i)).
  { intros A m k i Hs Hk. unfold io_bind. specialize (Hk).
    destruct (io_outcome (m i)) as [a|e]; [|left; exact Hs].
    specialize (Hk a eq_refl). unfold only_symbol in *.
    cbn [io_outcome io_sent]. rewrite Hs. exact Hk. }
  assert (Hsym : forall i, io_sent (read_symbol i) = []).
  { intros [|l i]; reflexivity. }
  assert (Hin : forall i, io_sent (input i) = []).
  { intros [|l i]; reflexivity. }
  assert (Hside : forall i side,
            io_outcome (get_choice_input "Enter side (BUY/SELL): " ["BUY"; "SELL"] i) =
              Ok side -> str_in (upper side) ["BUY"; "SELL"] = true).
  { intros i side H.
    destruct (get_choice_input_inv "Enter side (BUY/SELL): " ["BUY"; "SELL"] i)
      as (Hr & _).
    destruct (Hr side H) as (H1 & H2 & _). rewrite H2. apply str_in_spec. exact H1. }
  assert (Horder : forall (m : M (gmap string pyval)) (i : list string),
            (exists s, m = rejected (invalid_symbol s)) \/
            (exists params, sent m = [ReqExchangeInfo; ReqCreateOrder params]) ->
            only_symbol ((response <- of_M m ;;
                          io_lift (getitem response "orderId") ;;
                          io_lift (getitem response "status") ;; io_ret false)%io i)).
  { intros m i Hm. destruct (of_M_then_print m i) as (Hs & _ & He).
    cbv zeta in Hs, He. unfold only_symbol. rewrite Hs.
    destruct Hm as [[s ->]|[params ->]].
    - right; left. exists (upper s). split; [apply He|]; reflexivity.
    - right; right. exists params. reflexivity. }
  unfold menu_action.
  change ("2" =? "1") with false. change ("2" =? "2") with true.
  change ("3" =? "1") with false. change ("3" =? "2") with false.
  change ("3" =? "3") with true.
  change ("4" =? "1") with false. change ("4" =? "2") with false.
  change ("4" =? "3") with false. change ("4" =? "4") with true.
  cbv iota.
  split; [|split].
  - apply Hbind; [apply Hsym|]. intros symbol _.
    apply Hbind; [apply get_choice_input_inv|]. intros side Hs.
    apply Hside in Hs.
    apply Hbind; [apply get_float_input_inv|]. intros quantity Hq.
    apply get_float_input_inv in Hq. destruct Hq as [Hq _].
    apply Hbind; [apply Hin|]. intros confirm _.
    destruct (lower confirm =? "yes"); [|left; reflexivity].
    apply Horder. rewrite place_market_order_eq, Hs, Hq. cbn [negb].
    destruct (listed (basic bot) (upper symbol)); cbn [negb]; eauto.
  - apply Hbind; [apply Hsym|]. intros symbol _.
    apply Hbind; [apply get_choice_input_inv|]. intros side Hs.
    apply Hside in Hs.
    apply Hbind; [apply get_float_input_inv|]. intros quantity Hq.
    apply get_float_input_inv in Hq. destruct Hq as [Hq _].
    apply Hbind; [apply get_float_input_inv|]. intros price Hp.
    apply get_float_input_inv in Hp. destruct Hp as [Hp _].
    apply Hbind; [apply Hin|]. intros confirm _.
    destruct (lower confirm =? "yes"); [|left; reflexivity].
    apply Horder. rewrite place_limit_order_eq, Hs, Hq, Hp. cbn [negb orb].
    destruct (listed (basic bot) (upper symbol)); cbn [negb]; eauto.
  - apply Hbind; [apply Hsym|]. intros symbol _.
    apply Hbind; [apply get_choice_input_inv|]. intros side Hs.
    apply Hside in Hs.
    apply Hbind; [apply get_float_input_inv|]. intros quantity Hq.
    apply get_float_input_inv in Hq. destruct Hq as [Hq _].
    apply Hbind; [apply get_float_input_inv|]. intros stop_price Hsp.
    apply get_float_input_inv in Hsp. destruct Hsp as [Hsp _].
    apply Hbind; [apply get_float_input_inv|]. intros limit_price Hlp.
    apply get_float_input_inv in Hlp. destruct Hlp as [Hlp _].
    apply Hbind; [apply Hin|]. intros confirm _.
    destruct (lower confirm =? "yes"); [|left; reflexivity].
    apply Horder. rewrite place_stop_limit_order_eq, Hs, Hq, Hsp, Hlp. cbn [negb orb].
    destruct (listed (basic bot) (upper symbol)); cbn [negb]; eauto.
Qed.

(** X22: the shell places good-til-cancelled orders only.  Every order
    that the limit flow or the stop-limit flow sends, whatever is typed,
    has the time-in-force GTC: the flows never pass a time-in-force to
    the order methods. *)
Theorem shell_orders_are_gtc (bot : Bot) (inp : list string)
    (params : gmap string pyval) :
  (In (Base (ReqCreateOrder params))
      (io_sent (menu_action py_float py_int bot "3" inp)) ->
   params !! "type" = Some (PStr "LIMIT") /\
   params !! "timeInForce" = Some (PStr "GTC"))
  /\ (In (Base (ReqCreateOrder params))
         (io_sent (menu_action py_float py_int bot "4" inp)) ->
      params !! "type" = Some (PStr "STOP") /\
      params !! "timeInForce" = Some (PStr "GTC")).
Proof.
  assert (Hbind : forall (P : Prop) A (m : IO A) (k : A -> IO bool) (i : list string),
            io_sent (m i) = [] ->
            (forall a, In (Base (ReqCreateOrder params)) (io_sent (k a (io_rest (m i)))) ->
                       P) ->
            In (Base (ReqCreateOrder params)) (io_sent (io_bind m k i)) -> P).
  { intros P A m k i Hs Hk. unfold io_bind.
    destruct (io_outcome (m i)) as [a|e]; cbn [io_sent]; rewrite Hs; [apply Hk|].
    intros []. }
  assert (Hsym : forall i, io_sent (read_symbol i) = []).
  { intros [|l i]; reflexivity. }
  assert (Hin : forall i, io_sent (input i) = []).
  { intros [|l i]; reflexivity. }
  assert (Hbase : forall (m : M (gmap string pyval)) (i : list string),
            In (Base (ReqCreateOrder params))
               (io_sent ((response <- of_M m ;;
                          io_lift (getitem response "orderId") ;;
                          io_lift (getitem response "status") ;; io_ret false)%io i)) ->
            In (ReqCreateOrder params) (sent m)).
  { intros m i H. destruct (of_M_then_print m i) as (Hs & _). cbv zeta in Hs.
    rewrite Hs in H. apply in_map_iff in H. destruct H as (r & Hr & H).
    injection Hr as ->. exact H. }
  unfold menu_action.
  change ("3" =? "1") with false. change ("3" =? "2") with false.
  change ("3" =? "3") with true.
  change ("4" =? "1") with false. change ("4" =? "2") with false.
  change ("4" =? "3") with false. change ("4" =? "4") with true.
  cbv iota.
  split.
  - apply Hbind; [apply Hsym|]. intros symbol.
    apply Hbind; [apply get_choice_input_inv|]. intros side.
    apply Hbind; [apply get_float_input_inv|]. intros quantity.
    apply Hbind; [apply get_float_input_inv|]. intros price.
    apply Hbind; [apply Hin|]. intros confirm.
    destruct (lower confirm =? "yes"); [|intros []].
    intros H. apply Hbase in H. rewrite place_limit_order_eq in H.
    repeat match type of H with
           | context [if ?b then _ else _] => destruct b
           end;
      try (destruct H as [H|[]]; discriminate H).
    destruct H as [H|[H|[]]]; [discriminate H|]. injection H as <-.
    split; reflexivity.
  - apply Hbind; [apply Hsym|]. intros symbol.
    apply Hbind; [apply get_choice_input_inv|]. intros side.
    apply Hbind; [apply get_float_input_inv|]. intros quantity.
    apply Hbind; [apply get_float_input_inv|]. intros stop_price.
    apply Hbind; [apply get_float_input_inv|]. intros limit_price.
    apply Hbind; [apply Hin|]. intros confirm.
    destruct (lower confirm =? "yes"); [|intros []].
    intros H. apply Hbase in H. rewrite place_stop_limit_order_eq in H.
    repeat match type of H with
           | context [if ?b then _ else _] => destruct b
           end;
      try (destruct H as [H|[]]; discriminate H).
    destruct H as [H|[H|[]]]; [discriminate H|]. injection H as <-.
    split; reflexivity.
Qed.

(** X20: cancelling asks for no confirmation and checks nothing.  Once
    the symbol and an order id that [int] reads have been typed, the
    cancel request is sent at once, with the trimmed, upper-case symbol,
    without a symbol lookup, and the line after the id is left unread. *)
Theorem cancel_flow_unconfirmed (bot : Bot) (symbol_line id_line : string)
    (order_id : Z) (rest : list string) :
  py_int id_line = Ok order_id ->
  let o := menu_action py_float py_int bot "6" (symbol_line :: id_line :: rest) in
  io_sent o = [ReqCancelOrder (upper (strip symbol_line)) order_id]
  /\ io_rest o = rest.
Proof.
  intros Hid. unfold menu_action.
  change ("6" =? "1") with false. change ("6" =? "2") with false.
  change ("6" =? "3") with false. change ("6" =? "4") with false.
  change ("6" =? "5") with false. change ("6" =? "6") with true. cbv iota.
  erewrite io_bind_ok
    with (a := upper (strip symbol_line)) (s := []) (rest := id_line :: rest);
    [|reflexivity].
  erewrite io_bind_ok with (a := order_id) (s := []) (rest := rest);
    [|unfold read_order_id; rewrite io_bind_input; unfold io_lift; rewrite Hid;
      reflexivity].
  unfold io_bind at 1, cancel_order. rewrite io_pass_through, upper_idemp.
  destruct (futures_cancel_order (endpoints bot) (upper (strip symbol_line)) order_id);
    split; reflexivity.
Qed.

End ShellRuns.

(** A session against the example exchange: a market order for 0.01
    BTCUSDT after two rejected sides and two rejected quantities, then
    the exit. *)
Lemma main_returns_example :
  io_outcome (main float_of_numeral int_of_numeral (Some "key") (Some "secret") None
                (fun _ => (testnet_client, testnet_endpoints)) 12
                ["2"; " btcusdt "; "hold"; "buy"; "abc"; "-1"; "0.01"; "YES"; ""; "9"]) =
    Ok (Some tt)
  /\ io_outcome (main float_of_numeral int_of_numeral (Some "key") None None
                   (fun _ => (testnet_client, testnet_endpoints)) 12 ["key"]) =
    Raise EOFError.
Proof.
  split.
  - rewrite (main_returns float_of_numeral int_of_numeral (Some "key") (Some "secret")
               None (fun _ => (testnet_client, testnet_endpoints)) 12
               ["2"; " btcusdt "; "hold"; "buy"; "abc"; "-1"; "0.01"; "YES"; ""; "9"])
      by (cbn; lia).
    reflexivity.
  - rewrite (main_returns float_of_numeral int_of_numeral (Some "key") None
               None (fun _ => (testnet_client, testnet_endpoints)) 12 ["key"])
      by (cbn; lia).
    reflexivity.
Defined.

Lemma main_sends_no_unconfirmed_order_example :
  ~ In (Base (ReqCreateOrder
                {[ "symbol" := PStr "BTCUSDT"; "side" := PStr "BUY";
                   "type" := PStr "MARKET";
                   "quantity" := PFloat (float_of_decimal false 1 2) ]}))
       (io_sent (main float_of_numeral int_of_numeral (Some "key") (Some "secret") None
                   (fun _ => (testnet_client, testnet_endpoints)) 12
                   ["2"; "btcusdt"; "buy"; "0.01"; "y"; ""; "9"])).
Proof.
  apply (main_sends_no_unconfirmed_order float_of_numeral int_of_numeral).
  repeat (constructor; [vm_compute; discriminate|]). constructor.
Defined.

Lemma market_flow_confirmation_example :
  io_sent (menu_action float_of_numeral int_of_numeral testnet_bot "2"
             [" btcusdt "; "buy"; "0.01"; "Yes"; ""]) =
    [Base ReqExchangeInfo;
     Base (ReqCreateOrder
             {[ "symbol" := PStr "BTCUSDT"; "side" := PStr "BUY";
                "type" := PStr "MARKET";
                "quantity" := PFloat (float_of_decimal false 1 2) ]})].
Proof.
  pose proof (market_flow_confirmation float_of_numeral int_of_numeral testnet_bot
                " btcusdt " "buy" "0.01" "Yes" (float_of_decimal false 1 2) [""]) as H.
  destruct H as (_ & H & _); [left; reflexivity | reflexivity | reflexivity |].
  rewrite H by reflexivity. vm_compute. reflexivity.
Defined.

Lemma cancel_flow_unconfirmed_example :
  io_sent (menu_action float_of_numeral int_of_numeral testnet_bot "6"
             ["dogeusdt"; "42"; ""]) = [ReqCancelOrder "DOGEUSDT" 42]
  /\ listed (basic testnet_bot) "DOGEUSDT" = false.
Proof.
  split; [|reflexivity].
  apply (cancel_flow_unconfirmed float_of_numeral int_of_numeral testnet_bot
           "dogeusdt" "42" 42 [""]).
  reflexivity.
Defined.

Lemma shell_orders_are_gtc_example :
  ({[ "symbol" := PStr "BTCUSDT"; "side" := PStr "SELL"; "type" := PStr "LIMIT";
      "quantity" := PFloat (float_of_decimal false 1 2);
      "price" := PFloat (float_of_decimal false 30000 0);
      "timeInForce" := PStr "GTC" ]} : gmap string pyval) !! "timeInForce" =
    Some (PStr "GTC").
Proof.
  apply (proj1 (shell_orders_are_gtc float_of_numeral int_of_numeral testnet_bot
                  ["btcusdt"; "sell"; "0.01"; "30000"; "yes"] _)).
  vm_compute. right; left. reflexivity.
Defined.
